(** * Nitrogen-loss dashboard: the load / derive / assemble pipeline

    A shallow embedding of [Dashboard_micheal.py]: [load_data] and
    [update_dashboard], together with the pandas, numpy and Python string
    operations they call.

    Numbers.  A numeric CSV cell is a rational ([Q]); a missing cell is
    [NaN].  Sums of cells are exact.  What the tables display goes through
    binary64 as in the interpreter: the division by [10 ** 6], the addition
    of the two stage totals and numpy's [round] round each intermediate
    value to the nearest binary64 number ([rn]); overflow to infinity is
    left out.  The values of [np.log1p] are real numbers ([xfloat]); they
    only feed the colour scale of the maps.

    Texts.  A text is a [string] of bytes.  [PyStr.title] follows
    [str.title] on ASCII text; the case tables Python uses for other
    characters are not part of the model, and statements about title-cased
    labels are made for ASCII labels ([PyStr.is_ascii]). *)

From Stdlib Require Import String Ascii List Bool Arith ZArith QArith Qabs Qround Qpower.
From Stdlib Require Import DecimalString.
From Stdlib Require Import Permutation Lia Lqa.
From Stdlib Require Import Reals Qreals Lra.
Import ListNotations.

Close Scope R_scope.
Close Scope Q_scope.
Close Scope Z_scope.
Local Open Scope string_scope.
Local Open Scope nat_scope.
Local Open Scope list_scope.

(* ================================================================== *)
(** ** Exceptions *)

Inductive exn : Type :=
| KeyError (key : string)
| KeyErrorIndex (missing : list string)
| FileNotFoundError (path : string)
| ParserError (path : string)
| ValueError (what : string)
| TypeError (what : string)
| AttributeError (what : string).

Inductive result (A : Type) : Type :=
| Ok (a : A)
| Raise (e : exn).

Arguments Ok {A} a.
Arguments Raise {A} e.

Definition rbind {A B} (r : result A) (k : A -> result B) : result B :=
  match r with
  | Ok a => k a
  | Raise e => Raise e
  end.

Declare Scope res_scope.
Delimit Scope res_scope with res.
Notation "'let*' x ':=' c 'in' k" := (rbind c (fun x => k))
  (at level 10, x pattern, c at level 100, k at level 200) : res_scope.
Local Open Scope res_scope.

Fixpoint mapM {A B} (f : A -> result B) (l : list A) : result (list B) :=
  match l with
  | [] => Ok []
  | a :: l' =>
      let* b := f a in
      let* bs := mapM f l' in
      Ok (b :: bs)
  end.

(* ================================================================== *)
(** ** Python strings *)

Module PyStr.

(** [s.startswith(pre)] *)
Definition startswith (s pre : string) : bool := String.prefix pre s.

(** [s.replace(old, new)] scans left to right and replaces every
    non-overlapping occurrence.  [skip] counts the characters of a matched
    occurrence that are still to be dropped. *)
Fixpoint replace_from (old new : string) (skip : nat) (s : string) : string :=
  match s with
  | EmptyString => EmptyString
  | String c s' =>
      match skip with
      | S k => replace_from old new k s'
      | O =>
          if String.prefix old s
          then (new ++ replace_from old new (String.length old - 1) s')%string
          else String c (replace_from old new 0 s')
      end
  end.

(** With an empty [old], Python puts [new] before every character and at
    the end. *)
Fixpoint interleave (new s : string) : string :=
  match s with
  | EmptyString => new
  | String c s' => (new ++ String c (interleave new s'))%string
  end.

Definition replace (s old new : string) : string :=
  match old with
  | EmptyString => interleave new s
  | _ => replace_from old new 0 s
  end.

Definition is_lower (c : ascii) : bool :=
  let n := nat_of_ascii c in (97 <=? n) && (n <=? 122).
Definition is_upper (c : ascii) : bool :=
  let n := nat_of_ascii c in (65 <=? n) && (n <=? 90).
Definition to_upper (c : ascii) : ascii :=
  if is_lower c then ascii_of_nat (nat_of_ascii c - 32) else c.
Definition to_lower (c : ascii) : ascii :=
  if is_upper c then ascii_of_nat (nat_of_ascii c + 32) else c.


(** [s.title()] on ASCII text: a cased character (a letter) is upper-cased
    when the previous character is not cased and lower-cased otherwise.
    Bytes above 127 are left as they are and count as not cased; Python
    cases them by the Unicode tables. *)
Fixpoint title_from (previous_is_cased : bool) (s : string) : string :=
  match s with
  | EmptyString => EmptyString
  | String c s' =>
      if is_lower c then
        String (if previous_is_cased then c else to_upper c) (title_from true s')
      else if is_upper c then
        String (if previous_is_cased then to_lower c else c) (title_from true s')
      else String c (title_from false s')
  end.

Definition title (s : string) : string := title_from false s.

(** Does [old] occur in [s]? *)
Fixpoint occurs (old s : string) : bool :=
  String.prefix old s ||
  match s with
  | EmptyString => false
  | String _ s' => occurs old s'
  end.

Fixpoint drop (n : nat) (s : string) : string :=
  match n, s with
  | O, _ => s
  | S _, EmptyString => EmptyString
  | S k, String _ s' => drop k s'
  end.

End PyStr.

(* ================================================================== *)
(** ** Numbers *)

(** [np.rint]: the nearest integer, ties to the even one. *)
Definition rint (q : Q) : Z :=
  let f := Qfloor q in
  match (q - inject_Z f ?= 1 # 2)%Q with
  | Lt => f
  | Gt => (f + 1)%Z
  | Eq => if Z.even f then f else (f + 1)%Z
  end.

(** [2 ** k] *)
Definition pow2 (k : Z) : Q := Qpower (2 # 1) k.

(** The binary exponent of [a > 0]: the [k] with [2 ** k <= a < 2 ** (k + 1)]. *)
Definition ilog2 (a : Q) : Z :=
  let k := (Z.log2 (Qnum a) - Z.log2 (Zpos (Qden a)))%Z in
  if Qle_bool (pow2 k) a then k else (k - 1)%Z.

(** The binary64 number nearest to [q], ties to the even significand: 53
    bits of significand above [2 ** -1022], multiples of [2 ** -1074]
    below.  The result is a reduced fraction. *)
Definition rn (q : Q) : Q :=
  let r := Qred q in
  let a := Qabs r in
  match Qnum a with
  | Z0 => 0%Q
  | _ =>
      let e := Z.max (ilog2 a - 52) (-1074) in
      let m := rint (a / pow2 e)%Q in
      Qred (inject_Z (Z.sgn (Qnum r) * m) * pow2 e)%Q
  end.


(** [x / 10 ** 6] on binary64. *)
Definition million : Q := 1000000 # 1.
Definition div_million (q : Q) : Q := rn (rn q / million)%Q.

(** numpy's [round(x, 2)], which is behind [round] on a Series, a DataFrame
    and a numpy scalar: [np.rint(x * 100) / 100], the product and the
    quotient each rounded to binary64. *)
Definition round2 (q : Q) : Q :=
  rn (inject_Z (rint (rn (rn q * (100 # 1)))) / (100 # 1))%Q.

(** [round(x / 10 ** 6, 2)]: a raw sum as the tables show it, in millions
    with two decimals. *)
Definition millions (q : Q) : Q := round2 (div_million q).

(** A binary64 value known as a real number: what [np.log1p] returns. *)
Inductive xfloat : Type :=
| XNaN
| XNegInf
| XFin (r : R).

(** [np.log1p(v)]: [nan] below [-1], [-inf] at [-1], [ln (1 + v)] above. *)
Definition log1p (v : Q) : xfloat :=
  match (v ?= -1)%Q with
  | Lt => XNaN
  | Eq => XNegInf
  | Gt => XFin (ln (1 + Q2R v)%R)
  end.

(* ================================================================== *)
(** ** pandas: cells, Series and DataFrames *)

(** A cell of a table: missing ([NaN]), a number, a text, or a value of
    [np.log1p].  The code reads [Flt] cells only through the colour scale of
    a map: they live in the [log_*] columns, which no sum, rounding or
    grouping ever selects. *)
Inductive cell : Type :=
| NaN
| Num (q : Q)
| Str (s : string)
| Flt (x : xfloat).

Definition Series : Type := list cell.

(** A DataFrame is the list of its columns, in order, each with its label;
    the index is the row position.  Frames parsed by [pd.read_csv] have
    distinct labels and columns of one length. *)
Definition DataFrame : Type := list (string * Series).

Module Pandas.

(** [df.columns] *)
Definition columns (df : DataFrame) : list string := map fst df.

Definition values (df : DataFrame) : list Series := map snd df.

(** [len(df)] *)
Definition nrows (df : DataFrame) : nat :=
  match df with
  | [] => 0
  | (_, s) :: _ => length s
  end.

(** [df.columns = names]: the labels are replaced position by position;
    a wrong number of labels is a [ValueError]. *)
Definition set_columns (df : DataFrame) (names : list string) : result DataFrame :=
  if length names =? length df
  then Ok (combine names (values df))
  else Raise (ValueError "Length mismatch").

Definition labelled (col : string) (p : string * Series) : bool :=
  String.eqb (fst p) col.

(** [df[col]]: the column labelled [col]; [KeyError] without one.  With
    several columns of that label pandas hands back a frame, which every
    use in this program rejects: that is the [ValueError]. *)
Definition getitem (df : DataFrame) (col : string) : result Series :=
  match filter (labelled col) df with
  | [] => Raise (KeyError col)
  | [(_, s)] => Ok s
  | _ => Raise (ValueError col)
  end.

(** [col in df.columns] *)
Definition has_column (df : DataFrame) (col : string) : bool :=
  existsb (String.eqb col) (columns df).

(** [df[col] = s]: overwrite the column in place, or append it. *)
Definition setitem (df : DataFrame) (col : string) (s : Series) : DataFrame :=
  if has_column df col
  then map (fun p => if labelled col p then (fst p, s) else p) df
  else df ++ [(col, s)].

(** The columns of a list of labels, one by one. *)
Definition select_columns (df : DataFrame) (cols : list string) : result DataFrame :=
  mapM (fun c => let* s := getitem df c in Ok (c, s)) cols.

(** [df[[c1, ..., cn]]]: pandas first looks all the labels up and raises a
    [KeyError] that lists the ones that are not columns (["[...] not in
    index"], or ["None of [...] are in the [columns]"] when none is). *)
Definition select (df : DataFrame) (cols : list string) : result DataFrame :=
  match filter (fun c => negb (has_column df c)) cols with
  | [] => select_columns df cols
  | missing => Raise (KeyErrorIndex missing)
  end.

(** One step of a sum that skips missing cells ([skipna=True]). *)
Definition add_cell (acc : Q) (c : cell) : result Q :=
  match c with
  | NaN => Ok acc
  | Num q => Ok (acc + q)%Q
  | Str _ => Raise (TypeError "unsupported operand type(s) for +")
  | Flt _ => Raise (TypeError "unsupported operand type(s) for +")
  end.

Fixpoint sum_from (acc : Q) (s : Series) : result Q :=
  match s with
  | [] => Ok acc
  | c :: s' => let* acc' := add_cell acc c in sum_from acc' s'
  end.

(** [s.sum()] *)
Definition series_sum (s : Series) : result Q := sum_from 0%Q s.

(** Row [i] of a frame. *)
Definition row (df : DataFrame) (i : nat) : list cell :=
  map (fun s => nth i s NaN) (values df).

(** [df.sum(axis=1)] *)
Definition sum_axis1 (df : DataFrame) : result Series :=
  mapM (fun i => let* t := series_sum (row df i) in Ok (Num t))
       (seq 0 (nrows df)).

(** [df.sum()]: one sum per column, labelled by the column. *)
Definition frame_sum (df : DataFrame) : result (list (string * Q)) :=
  mapM (fun p => let* t := series_sum (snd p) in Ok (fst p, t)) df.

(** [df.sum().sum()] *)
Definition sum_sum (df : DataFrame) : result Q :=
  let* sums := frame_sum df in
  Ok (fold_left Qplus (map snd sums) 0%Q).

(** [pd.concat([a, b])] of two frames with the same labels in the same
    order (both come from one [df[[...]]] selection list): the rows of [b]
    follow the rows of [a]. *)
Definition concat (a b : DataFrame) : DataFrame :=
  map (fun p => (fst (fst p), snd (fst p) ++ snd (snd p))) (combine a b).

(** *** groupby *)

(** Grouping keys.  A number is a key by its value (its reduced
    fraction); missing cells have no key, so their rows are dropped
    ([dropna=True]). *)
Inductive key : Type :=
| KNum (q : Q)
| KStr (s : string).

Definition key_of_cell (c : cell) : option key :=
  match c with
  | Num q => Some (KNum (Qred q))
  | Str s => Some (KStr s)
  | NaN => None
  | Flt _ => None
  end.

Definition cell_of_key (k : key) : cell :=
  match k with
  | KNum q => Num q
  | KStr s => Str s
  end.

Definition key_eqb (a b : key) : bool :=
  match a, b with
  | KNum p, KNum q => Z.eqb (Qnum p) (Qnum q) && Pos.eqb (Qden p) (Qden q)
  | KStr s, KStr t => String.eqb s t
  | _, _ => false
  end.

(** The order of the result ([sort=True]): numbers by value, texts by
    code points, numbers before texts. *)
Definition key_leb (a b : key) : bool :=
  match a, b with
  | KNum p, KNum q => Qle_bool p q
  | KStr s, KStr t => String.leb s t
  | KNum _, KStr _ => true
  | KStr _, KNum _ => false
  end.

(** One pass over the rows: row [v] joins the group of its key, a new key
    opens a group after the ones seen so far. *)
Fixpoint add_to_group {A} (k : key) (v : A) (gs : list (key * list A))
  : list (key * list A) :=
  match gs with
  | [] => [(k, [v])]
  | (k', vs) :: gs' =>
      if key_eqb k k' then (k', vs ++ [v]) :: gs'
      else (k', vs) :: add_to_group k v gs'
  end.

(** The pass over the rows, [for i in range(n)]: row [i] goes to the group
    of [keys[i]]. *)
Definition group_step (keys : Series) (gs : list (key * list nat)) (i : nat)
  : list (key * list nat) :=
  match key_of_cell (nth i keys NaN) with
  | Some k => add_to_group k i gs
  | None => gs
  end.

Definition group_rows (keys : Series) : list (key * list nat) :=
  fold_left (group_step keys) (seq 0 (length keys)) [].

Fixpoint insert_group {A} (g : key * A) (gs : list (key * A)) : list (key * A) :=
  match gs with
  | [] => [g]
  | g' :: gs' =>
      if key_leb (fst g) (fst g') then g :: gs
      else g' :: insert_group g gs'
  end.

Fixpoint sort_groups {A} (gs : list (key * A)) : list (key * A) :=
  match gs with
  | [] => []
  | g :: gs' => insert_group g (sort_groups gs')
  end.

(** [s.groupby(keys).indices], sorted by key: each key with the positions
    of its rows, in row order. *)
Definition groupby (keys : Series) : list (key * list nat) :=
  sort_groups (group_rows keys).

Definition isna (c : cell) : bool :=
  match c with
  | NaN => true
  | Flt XNaN => true
  | _ => false
  end.

(** ['first']: the first cell of the group that is not missing. *)
Fixpoint first_valid (cells : list cell) : cell :=
  match cells with
  | [] => NaN
  | c :: cells' => if isna c then first_valid cells' else c
  end.

Inductive aggfn : Type := AggSum | AggFirst.

Definition aggregate (f : aggfn) (cells : list cell) : result cell :=
  match f with
  | AggSum => let* t := series_sum cells in Ok (Num t)
  | AggFirst => Ok (first_valid cells)
  end.

Definition take (s : Series) (idx : list nat) : list cell :=
  map (fun i => nth i s NaN) idx.

(** [df.groupby(by).agg({col: f, ...}).reset_index()]: the key column
    first, then one column per aggregation. *)
Definition groupby_agg (df : DataFrame) (by_ : string)
           (aggs : list (string * aggfn)) : result DataFrame :=
  let* keys := getitem df by_ in
  let gs := groupby keys in
  let* out :=
    mapM (fun ca =>
            let* s := getitem df (fst ca) in
            let* vals := mapM (fun g => aggregate (snd ca) (take s (snd g))) gs in
            Ok (fst ca, vals))
         aggs in
  Ok ((by_, map (fun g => cell_of_key (fst g)) gs) :: out).

(** *** element-wise operations *)

(** [np.log1p(s)] *)
Definition log1p_cell (c : cell) : result cell :=
  match c with
  | NaN => Ok NaN
  | Num q => Ok (Flt (log1p q))
  | Str _ => Raise (TypeError "loop of ufunc does not support argument")
  | Flt _ => Raise (TypeError "loop of ufunc does not support argument")
  end.

Definition np_log1p (s : Series) : result Series := mapM log1p_cell s.

(** [round(s.div(10 ** 6), 2)] on one cell *)
Definition millions_cell (c : cell) : result cell :=
  match c with
  | NaN => Ok NaN
  | Num q => Ok (Num (millions q))
  | Str _ => Raise (TypeError "unsupported operand type(s) for /")
  | Flt _ => Raise (TypeError "unsupported operand type(s) for /")
  end.

(** [df.round(2)]: numeric cells are rounded, the others stay. *)
Definition round_cell (c : cell) : cell :=
  match c with
  | Num q => Num (round2 q)
  | _ => c
  end.

Definition round_frame (df : DataFrame) : DataFrame :=
  map (fun p => (fst p, map round_cell (snd p))) df.

Definition is_str (c : cell) : bool :=
  match c with
  | Str _ => true
  | _ => false
  end.

(** [s.str.f()]: the accessor exists on text columns only (a column with a
    text cell, or with no cell at all); cells that are not text come out
    missing. *)
Definition str_map (f : string -> string) (s : Series) : result Series :=
  if existsb is_str s || (length s =? 0)
  then Ok (map (fun c => match c with Str t => Str (f t) | _ => NaN end) s)
  else Raise (AttributeError "Can only use .str accessor with string values").

End Pandas.

(* ================================================================== *)
(** ** The files and the process *)

(** What [pd.read_csv] finds at a path: nothing, a file it cannot parse, or
    a table. *)
Inductive file : Type :=
| Absent
| Garbled
| Parsed (df : DataFrame).

(** The state a request runs in: the directory of the script ([base_dir])
    and the file system. *)
Record world : Type := {
  base_dir : string;
  files : string -> file
}.

(** A computation that may raise and that runs in the world: every
    operation hands the world on to the next one. *)
Definition M (A : Type) : Type := world -> result A * world.

Definition mbind {A B} (m : M A) (k : A -> M B) : M B :=
  fun w =>
    match m w with
    | (Ok a, w') => k a w'
    | (Raise e, w') => (Raise e, w')
    end.

Definition lift {A} (r : result A) : M A := fun w => (r, w).

Notation "'let!' x ':=' c 'in' k" := (mbind c (fun x => k))
  (at level 10, x pattern, c at level 100, k at level 200) : res_scope.

(** [pd.read_csv(path)] *)
Definition read_csv (path : string) : M DataFrame :=
  fun w =>
    (match files w path with
     | Absent => Raise (FileNotFoundError path)
     | Garbled => Raise (ParserError path)
     | Parsed df => Ok df
     end, w).

Fixpoint ends_with_slash (s : string) : bool :=
  match s with
  | EmptyString => false
  | String c EmptyString => Ascii.eqb c "/"
  | String _ s' => ends_with_slash s'
  end.

(** [os.path.join(a, b)] *)
Definition path_join (a b : string) : string :=
  if PyStr.startswith b "/" then b
  else if String.eqb a "" || ends_with_slash a then (a ++ b)%string
  else (a ++ "/" ++ b)%string.

(** [d[k]] on a dict kept as the list of its items. *)
Fixpoint dict_get {V} (d : list (string * V)) (k : string) : result V :=
  match d with
  | [] => Raise (KeyError k)
  | (k', v) :: d' => if String.eqb k k' then Ok v else dict_get d' k
  end.

(** The module-level [data_paths], built from [base_dir] when the script is
    imported. *)
Definition data_paths (w : world) : list (string * string) :=
  [ ("2017", path_join (path_join (base_dir w) "data") "2017");
    ("2030", path_join (path_join (base_dir w) "data") "2030");
    ("2050", path_join (path_join (base_dir w) "data") "2050") ].

Definition get_data_path (year : string) : M string :=
  fun w => (dict_get (data_paths w) year, w).

(** The module-level [nitrogen_loss_labels], in insertion order. *)
Definition nitrogen_loss_labels : list (string * string) :=
  [ ("nitrogen_loss1", "N input not taken by crop");
    ("nitrogen_loss2", "Crop processing N loss");
    ("nitrogen_loss3", "Feed waste & manure loss");
    ("nitrogen_loss4", "Slaughtering/milking/laying N loss");
    ("nitrogen_loss5", "Food processing N loss");
    ("nitrogen_loss6", "Food N waste");
    ("nitrogen_loss7", "Human N waste") ].

(* ================================================================== *)
(** ** [load_data] *)

Definition source_files : list string :=
  [ "nitrogen_losses_summary.csv";
    "harvested_area_by_commodity.csv";
    "inventory_by_commodity.csv";
    "crop_processing_nitrogen.csv";
    "animal_stage_nitrogen.csv" ].

(** The new label of a column: [col.replace("selfloop", "within_county") if
    col.startswith("selfloop") else col]. *)
Definition rename_column (col : string) : string :=
  if PyStr.startswith col "selfloop"
  then PyStr.replace col "selfloop" "within_county"
  else col.

(** [df.columns = [... for col in df.columns]] *)
Definition rename_columns (df : DataFrame) : result DataFrame :=
  Pandas.set_columns df (map rename_column (Pandas.columns df)).

Definition crop_loss_columns : list string :=
  ["nitrogen_loss1"; "nitrogen_loss2"].

Definition animal_loss_columns : list string :=
  ["nitrogen_loss3"; "nitrogen_loss4"; "nitrogen_loss5"; "nitrogen_loss6";
   "nitrogen_loss7"].

(** [df['total_nitrogen_loss'] = df[cols].sum(axis=1)] *)
Definition add_total (df : DataFrame) (cols : list string) : result DataFrame :=
  let* losses := Pandas.select df cols in
  let* total := Pandas.sum_axis1 losses in
  Ok (Pandas.setitem df "total_nitrogen_loss" total).

Definition county_total_columns : list string :=
  ["FIPS"; "county"; "total_nitrogen_loss"].

(** The county totals of both stages, crop rows first, merged by [FIPS]. *)
Definition total_nitrogen (crop animal : DataFrame) : result DataFrame :=
  let* c := Pandas.select crop county_total_columns in
  let* a := Pandas.select animal county_total_columns in
  Pandas.groupby_agg (Pandas.concat c a) "FIPS"
    [("total_nitrogen_loss", Pandas.AggSum); ("county", Pandas.AggFirst)].

Record loaded : Type := {
  nitrogen_df : DataFrame;
  area_df : DataFrame;
  inventory_df : DataFrame;
  crop_processing_nitrogen_df : DataFrame;
  animal_stage_nitrogen_df : DataFrame;
  total_nitrogen_df : DataFrame
}.

(** Everything [load_data] does once the five tables are read. *)
Definition derive (nitrogen area inventory crop animal : DataFrame) : result loaded :=
  let* crop := rename_columns crop in
  let* animal := rename_columns animal in
  let* crop := add_total crop crop_loss_columns in
  let* animal := add_total animal animal_loss_columns in
  let* total := total_nitrogen crop animal in
  Ok {| nitrogen_df := nitrogen;
        area_df := area;
        inventory_df := inventory;
        crop_processing_nitrogen_df := crop;
        animal_stage_nitrogen_df := animal;
        total_nitrogen_df := total |}.

Definition load_data (year : string) : M loaded :=
  let! path := get_data_path year in
  let! nitrogen := read_csv (path_join path "nitrogen_losses_summary.csv") in
  let! area := read_csv (path_join path "harvested_area_by_commodity.csv") in
  let! inventory := read_csv (path_join path "inventory_by_commodity.csv") in
  let! crop := read_csv (path_join path "crop_processing_nitrogen.csv") in
  let! animal := read_csv (path_join path "animal_stage_nitrogen.csv") in
  lift (derive nitrogen area inventory crop animal).

(* ================================================================== *)
(** ** The display artifacts *)

(** A plotly express figure, by the data it draws. *)
Inductive figure : Type :=
| Choropleth (title : string) (locations color hover_name : Series)
             (hover_data : string * Series)
| Pie (title : string) (names values : Series).

(** The Dash components the callback builds (styles left out). *)
#[warnings="-register-all"]
Inductive component : Type :=
| H2 (text id : string)
| H3 (text : string)
| Br
| Graph (fig : figure)
| DataTable (data : DataFrame)
| Tab (label : string) (children : list component)
| Tabs (children : list component)
| Div (children : list component).

(** plotly express looks its arguments up in the frame and raises
    [ValueError] for a name that is not a column. *)
Definition px_column (df : DataFrame) (name : string) : result Series :=
  match Pandas.getitem df name with
  | Ok s => Ok s
  | Raise _ => Raise (ValueError name)
  end.

(** [px.choropleth(df, locations="FIPS", color=color, hover_name="county",
    hover_data={hover: True}, title=title, ...)] *)
Definition px_choropleth (df : DataFrame) (color hover title : string) : result figure :=
  let* loc := px_column df "FIPS" in
  let* col := px_column df color in
  let* name := px_column df "county" in
  let* hov := px_column df hover in
  Ok (Choropleth title loc col name (hover, hov)).

(** [px.pie(df, names=names, values=values, title=title)] *)
Definition px_pie (df : DataFrame) (names values title : string) : result figure :=
  let* n := px_column df names in
  let* v := px_column df values in
  Ok (Pie title n v).

Fixpoint foldM {A S} (f : S -> A -> result S) (l : list A) (s : S) : result S :=
  match l with
  | [] => Ok s
  | a :: l' => let* s' := f s a in foldM f l' s'
  end.

Definition enumerate {A} (l : list A) : list (nat * A) :=
  combine (seq 0 (length l)) l.

(** [df[f"log_{col}"] = np.log1p(df[col])] *)
Definition add_log (df : DataFrame) (col : string) : result DataFrame :=
  let* v := Pandas.getitem df col in
  let* lg := Pandas.np_log1p v in
  Ok (Pandas.setitem df ("log_" ++ col)%string lg).

(** The two frames the loops write to, and the tabs built so far. *)
Record frames : Type := {
  crop_df : DataFrame;
  animal_df : DataFrame
}.

(** One turn of the loop over [nitrogen_loss_labels]: [df] is [crop_df] for
    the first two categories and [animal_df] after; the log column is
    written to that very frame. *)
Definition loss_tab (st : frames * list component) (e : nat * (string * string))
  : result (frames * list component) :=
  let (fr, tabs) := st in
  let i := fst e in
  let col := fst (snd e) in
  let label := snd (snd e) in
  let df := if i <? 2 then crop_df fr else animal_df fr in
  let title := ("<b>" ++ label ++ "</b>")%string in
  let* df := add_log df col in
  let* fig := px_choropleth df ("log_" ++ col)%string col title in
  let fr := if i <? 2
            then {| crop_df := df; animal_df := animal_df fr |}
            else {| crop_df := crop_df fr; animal_df := df |} in
  Ok (fr, tabs ++ [Tab label [Graph fig]]).

Definition nitrogen_loss_tabs (fr : frames) : result (frames * list component) :=
  foldM loss_tab (enumerate nitrogen_loss_labels) (fr, []).

(** The map of the county totals. *)
Definition total_loss_fig (total : DataFrame) : result figure :=
  let* total := add_log total "total_nitrogen_loss" in
  px_choropleth total "log_total_nitrogen_loss" "total_nitrogen_loss"
                "<b>Total Nitrogen Loss by County</b>".

(** [round(df[cols].sum().div(10 ** 6), 2).tolist()] *)
Definition rounded_sums (df : DataFrame) (cols : list string) : result (list cell) :=
  let* losses := Pandas.select df cols in
  let* sums := Pandas.frame_sum losses in
  Ok (map (fun p => Num (millions (snd p))) sums).

(** [df[cols].sum().sum() / 10 ** 6] *)
Definition total_millions (df : DataFrame) (cols : list string) : result Q :=
  let* losses := Pandas.select df cols in
  let* t := Pandas.sum_sum losses in
  Ok (div_million t).

Definition string_of_nat (n : nat) : string :=
  DecimalString.NilEmpty.string_of_uint (Nat.to_uint n).

(** The table of the seven loss categories and their total. *)
Definition nitrogen_loss_table (fr : frames) : result DataFrame :=
  let* crop_total := total_millions (crop_df fr) crop_loss_columns in
  let* animal_total := total_millions (animal_df fr) animal_loss_columns in
  let total_nitrogen_loss := round2 (crop_total + animal_total)%Q in
  let* crop_rows := rounded_sums (crop_df fr) crop_loss_columns in
  let* animal_rows := rounded_sums (animal_df fr) animal_loss_columns in
  Ok [ ("Nitrogen Loss ID",
         map (fun i => Str ("Nitrogen Loss Stage " ++ string_of_nat i)%string) (seq 1 7)
         ++ [Str "Total Nitrogen Loss"]);
       ("Nitrogen Loss Type",
         map (fun p => Str (snd p)) nitrogen_loss_labels ++ [Str "Total Nitrogen Loss"]);
       ("Total (K Tons)",
         crop_rows ++ animal_rows ++ [Num total_nitrogen_loss]) ].

(** The stages of the supply chain with their flow columns. *)
Definition stages : list (string * list string) :=
  [ ("Crop Stage",
      ["import_crop_processing_nitrogen"; "export_crop_processing_nitrogen";
       "within_county_crop_processing_nitrogen"]);
    ("Live Animal Stage",
      ["import_animal_nitrogen"; "export_animal_nitrogen";
       "within_county_animal_nitrogen"]);
    ("Animal Product Stage",
      ["import_meat_nitrogen"; "export_meat_nitrogen";
       "within_county_meat_nitrogen"]) ].

(** [col.replace('_', ' ').title()] *)
Definition pretty_column (col : string) : string :=
  PyStr.title (PyStr.replace col "_" " ").

(** [s.str.title().str.replace('_', ' ')] *)
Definition pretty_commodity (s : Series) : result Series :=
  let* t := Pandas.str_map PyStr.title s in
  Pandas.str_map (fun x => PyStr.replace x "_" " ") t.

(** One turn of the inner loop: the log column goes to [stage_df] and the
    map becomes a tab. *)
Definition stage_tab (stage : string) (st : DataFrame * list component) (col : string)
  : result (DataFrame * list component) :=
  let (stage_df, stage_tabs) := st in
  let* stage_df := add_log stage_df col in
  let title := ("<b>" ++ pretty_column col ++ " - " ++ stage ++ "<b>")%string in
  let* fig := px_choropleth stage_df ("log_" ++ col)%string col title in
  Ok (stage_df, stage_tabs ++ [Tab (pretty_column col) [Graph fig]]).

(** [table_data[columns] = round(table_data[columns].div(10 ** 6), 2)] *)
Definition millions_columns (df : DataFrame) (cols : list string) : result DataFrame :=
  mapM (fun p =>
          if existsb (String.eqb (fst p)) cols
          then let* s := mapM Pandas.millions_cell (snd p) in Ok (fst p, s)
          else Ok p)
       df.

Definition table_headers : list string :=
  ["Commodity"; "Import (K Tons)"; "Export (K Tons)"; "Within County (K Tons)"].

(** The summary table of one stage. *)
Definition table_data (stage_df : DataFrame) (cols : list string) : result DataFrame :=
  let* t := Pandas.groupby_agg stage_df "commodity"
              (map (fun c => (c, Pandas.AggSum)) cols) in
  let* t := millions_columns t cols in
  let* commodity := Pandas.getitem t "commodity" in
  let* commodity := pretty_commodity commodity in
  let t := Pandas.setitem t "commodity" commodity in
  Pandas.set_columns t table_headers.

(** One turn of the loop over the stages; [stage_df] is [crop_df] for the
    first stage and [animal_df] (the same frame twice) for the other two. *)
Definition stage_section (st : frames * list component) (e : nat * (string * list string))
  : result (frames * list component) :=
  let (fr, sections) := st in
  let idx := fst e in
  let stage := fst (snd e) in
  let cols := snd (snd e) in
  let stage_df := if idx =? 0 then crop_df fr else animal_df fr in
  let* r := foldM (stage_tab stage) cols (stage_df, []) in
  let (stage_df, stage_tabs) := r in
  let* table := table_data stage_df cols in
  let fr := if idx =? 0
            then {| crop_df := stage_df; animal_df := animal_df fr |}
            else {| crop_df := crop_df fr; animal_df := stage_df |} in
  Ok (fr, sections ++
          [Div [H3 stage; Tabs stage_tabs; Br; Div [DataTable table]]]).

Definition import_export_sections (fr : frames) : result (frames * list component) :=
  foldM stage_section (enumerate stages) (fr, []).

(** [if "Commodity" in df.columns: df["Commodity"] = ...] *)
Definition format_commodity (df : DataFrame) : result DataFrame :=
  if Pandas.has_column df "Commodity" then
    let* c := Pandas.getitem df "Commodity" in
    let* c := pretty_commodity c in
    Ok (Pandas.setitem df "Commodity" c)
  else Ok df.

Definition inventory_harvest (inventory area : DataFrame) : result component :=
  let* inventory := format_commodity inventory in
  let* area := format_commodity area in
  let* inventory_chart :=
    px_pie inventory "Commodity" "Total Inventory (head)" "<b>Inventory by Commodity<b>" in
  let* area_chart :=
    px_pie area "Commodity" "Total Harvested Area (Acre)"
           "<b> Harvested Area by Commodity <b>" in
  let area := Pandas.round_frame area in
  let inventory := Pandas.round_frame inventory in
  Ok (Div [ H2 "What Are the Production Totals for Crops and Animals in the Chesapeake Bay?"
               "area-inventory";
            Tabs [ Tab "Inventory" [Graph inventory_chart; Br; DataTable inventory];
                   Tab "Harvested Area" [Graph area_chart; Br; DataTable area] ] ]).

(** The five values [update_dashboard] returns, in the order of its
    [return]. *)
Definition outputs : Type :=
  (component * component * component * list component * component)%type.

(** The body of [update_dashboard] after [load_data]. *)
Definition assemble (d : loaded) : result outputs :=
  let fr := {| crop_df := crop_processing_nitrogen_df d;
               animal_df := animal_stage_nitrogen_df d |} in
  let* r := nitrogen_loss_tabs fr in
  let (fr, tabs) := r in
  let* total_fig := total_loss_fig (total_nitrogen_df d) in
  let tabs := tabs ++ [Tab "Total Nitrogen Loss" [Graph total_fig]] in
  let maps :=
    Div [ H2 "In What Stage Is Nitrogen Lost in the Food and Animal Supply Chain?"
             "nitrogen-loss";
          Tabs tabs ] in
  let* loss_table := nitrogen_loss_table fr in
  let nitrogen_loss_table_component := DataTable loss_table in
  let nitrogen_loss_location_heading :=
    H2 "Where Does Nitrogen Loss Occur in the Chesapeake Bay?" "trade-behavior" in
  let* r := import_export_sections fr in
  let (_, sections) := r in
  let import_export_content := Div (nitrogen_loss_location_heading :: sections) in
  let* inventory_harvest_section := inventory_harvest (inventory_df d) (area_df d) in
  Ok (maps, nitrogen_loss_table_component, import_export_content, [],
      inventory_harvest_section).

Definition update_dashboard (selected_year : string) : M outputs :=
  let! d := load_data selected_year in
  lift (assemble d).

(** What the page shows, by the [id] of each container; the callback's
    [Output] list pairs the ids with the returned values in order. *)
Record page : Type := {
  chloropleth_maps : component;
  nitrogen_loss_table_children : component;
  import_export_tables : component;
  import_export_maps : list component;
  inventory_harvest_section : component
}.

Definition update_dashboard_wrapper (selected_year : string) : M page :=
  let! out := update_dashboard selected_year in
  lift (let '(o1, o2, o3, o4, o5) := out in
        Ok {| chloropleth_maps := o1;
              nitrogen_loss_table_children := o2;
              import_export_tables := o3;
              import_export_maps := o4;
              inventory_harvest_section := o5 |}).

(* ================================================================== *)
(** ** A small scenario *)

Module Sample.

Definition n (z : Z) : cell := Num (z # 1).

Definition crop : DataFrame :=
  [ ("FIPS", [n 51001; n 51003; n 51007]);
    ("county", [Str "Accomack"; Str "Albemarle"; Str "Amelia"]);
    ("commodity", [Str "corn"; Str "corn"; Str "winter_wheat"]);
    ("nitrogen_loss1", [n 1000000; n 250000; NaN]);
    ("nitrogen_loss2", [n 500000; n 4000; n 4000]);
    ("import_crop_processing_nitrogen", [n 2000000; n 0; n 1234567]);
    ("export_crop_processing_nitrogen", [n 1000000; n 15000; n 0]);
    ("selfloop_crop_processing_nitrogen", [n 500000; n 5000; n 25000]) ].

Definition animal : DataFrame :=
  [ ("FIPS", [n 51001; n 51005]);
    ("county", [NaN; Str "Alleghany"]);
    ("commodity", [Str "dairy_cattle"; Str "dairy_cattle"]);
    ("nitrogen_loss3", [n 4000; n 4000]);
    ("nitrogen_loss4", [n 4000; n 0]);
    ("nitrogen_loss5", [n 4000; n 0]);
    ("nitrogen_loss6", [n 4000; n 0]);
    ("nitrogen_loss7", [n 4000; n 0]);
    ("import_animal_nitrogen", [n 1500000; n 500000]);
    ("export_animal_nitrogen", [n 1000000; n 0]);
    ("selfloop_animal_nitrogen", [n 250000; n 250000]);
    ("import_meat_nitrogen", [n 0; n 0]);
    ("export_meat_nitrogen", [n 10000; n 5000]);
    ("selfloop_meat_nitrogen", [n 1; n 2]) ].

Definition inventory : DataFrame :=
  [ ("Commodity", [Str "dairy_cattle"; Str "broilers"]);
    ("Total Inventory (head)", [Num (24681 # 2); n 1000000]) ].

Definition area : DataFrame :=
  [ ("Commodity", [Str "corn"; Str "winter_wheat"]);
    ("Total Harvested Area (Acre)", [Num (1234567 # 1000); n 77]) ].

Definition summary : DataFrame :=
  [ ("FIPS", [n 51001]); ("nitrogen_loss1", [n 1]) ].

Definition dir : string := "/srv/dashboard/data/2017".

Definition fs (p : string) : file :=
  if String.eqb p (dir ++ "/nitrogen_losses_summary.csv") then Parsed summary
  else if String.eqb p (dir ++ "/harvested_area_by_commodity.csv") then Parsed area
  else if String.eqb p (dir ++ "/inventory_by_commodity.csv") then Parsed inventory
  else if String.eqb p (dir ++ "/crop_processing_nitrogen.csv") then Parsed crop
  else if String.eqb p (dir ++ "/animal_stage_nitrogen.csv") then Parsed animal
  else Absent.

Definition w : world := {| base_dir := "/srv/dashboard"; files := fs |}.

(** The same scenario with another summary table. *)
Definition summary' : DataFrame :=
  [ ("FIPS", [n 51001; n 51003]); ("nitrogen_loss1", [n 7; NaN]);
    ("note", [Str "revised"; Str "revised"]) ].

Definition w' : world :=
  {| base_dir := "/srv/dashboard";
     files := fun p =>
       if String.eqb p (dir ++ "/nitrogen_losses_summary.csv") then Parsed summary'
       else fs p |}.

End Sample.

(* ================================================================== *)
(** ** Vocabulary of the statements *)

(** The number a cell adds to a sum: its value, and nothing for a missing
    cell. *)
Definition cell_value (c : cell) : Q :=
  match c with
  | Num q => q
  | _ => 0%Q
  end.

(** The sum of the numbers of a list of cells. *)
Definition total_value (cells : list cell) : Q :=
  fold_right (fun c acc => (cell_value c + acc)%Q) 0%Q cells.

(** The rename as the specification words it: the legacy prefix, and only
    the prefix, becomes the canonical label. *)
Definition replace_prefix (col : string) : string :=
  ("within_county" ++ PyStr.drop (String.length "selfloop") col)%string.

(** Is [k] the grouping key of row [i]? *)
Definition has_key (keys : Series) (k : Pandas.key) (i : nat) : bool :=
  match Pandas.key_of_cell (nth i keys NaN) with
  | Some k' => Pandas.key_eqb k k'
  | None => false
  end.

(** The rows whose key is [k], in row order. *)
Definition rows_with (keys : Series) (k : Pandas.key) : list nat :=
  filter (has_key keys k) (seq 0 (length keys)).

(** The rows collected so far for [k]. *)
Definition group_of {A} (k : Pandas.key) (gs : list (Pandas.key * list A)) : list A :=
  match find (fun g => Pandas.key_eqb k (fst g)) gs with
  | Some g => snd g
  | None => []
  end.


(** The sum of a list of numbers. *)
Definition qsum (l : list Q) : Q := fold_right Qplus 0%Q l.

(** A tab that holds one choropleth map. *)
Definition is_map_tab (c : component) : Prop :=
  exists label title locations color hover_name hover_data,
    c = Tab label [Graph (Choropleth title locations color hover_name hover_data)].

(** The section of a stage: its heading, its three maps in tabs, and its
    table. *)
Definition is_stage_section (stage : string) (c : component) : Prop :=
  exists t1 t2 t3 table,
    is_map_tab t1 /\ is_map_tab t2 /\ is_map_tab t3 /\
    c = Div [H3 stage; Tabs [t1; t2; t3]; Br; Div [DataTable table]].

(* ================================================================== *)
(** ** The layout *)

(** The [year-dropdown] of [app.layout]: one option per key of
    [data_paths], label and value both the year, and ['2017'] selected when
    the page opens. *)
Record dropdown : Type := {
  options : list (string * string);
  value : string
}.

Definition year_dropdown (w : world) : dropdown :=
  {| options := map (fun p => (fst p, fst p)) (data_paths w);
     value := "2017" |}.

(** The years a user can select. *)
Definition selectable_years (w : world) : list string :=
  map snd (options (year_dropdown w)).

(** The path of a source table of a scenario. *)
Definition scenario_file (w : world) (year name : string) : string :=
  path_join (path_join (path_join (base_dir w) "data") year) name.

(** [df] is the table [file] as [load_data] hands it out: the labels
    renamed in place, the cells of the file's columns kept, and
    [total_nitrogen_loss] appended as the last column unless a column of
    that label was there to be overwritten. *)
Definition renamed_with_total (file df : DataFrame) : Prop :=
  Pandas.columns df
  = (if existsb (String.eqb "total_nitrogen_loss")
                (map rename_column (Pandas.columns file))
     then map rename_column (Pandas.columns file)
     else map rename_column (Pandas.columns file) ++ ["total_nitrogen_loss"]) /\
  (forall i name s,
      nth_error file i = Some (name, s) ->
      rename_column name <> "total_nitrogen_loss" ->
      nth_error df i = Some (rename_column name, s)) /\
  Forall (fun name => PyStr.startswith name "selfloop" = false) (Pandas.columns df).

(* ================================================================== *)
(** ** More scenarios *)

Module Sample2.

(** The sample with a crop table for 2030 as well. *)
Definition w_2030 : world :=
  {| base_dir := "/srv/dashboard";
     files := fun p =>
       if String.eqb p "/srv/dashboard/data/2030/crop_processing_nitrogen.csv"
       then Parsed Sample.animal
       else Sample.fs p |}.

(** The sample with a crop table that has no [nitrogen_loss1] column. *)
Definition crop_no_loss1 : DataFrame :=
  filter (fun p => negb (String.eqb (fst p) "nitrogen_loss1")) Sample.crop.

Definition w_no_loss1 : world :=
  {| base_dir := "/srv/dashboard";
     files := fun p =>
       if String.eqb p "/srv/dashboard/data/2017/crop_processing_nitrogen.csv"
       then Parsed crop_no_loss1
       else Sample.fs p |}.

(** The sample with an inventory table whose header says [commodity]. *)
Definition inventory_lowercase : DataFrame :=
  [ ("commodity", [Str "dairy_cattle"; Str "broilers"]);
    ("Total Inventory (head)", [Num (24681 # 2); Sample.n 1000000]) ].

Definition w_lowercase : world :=
  {| base_dir := "/srv/dashboard";
     files := fun p =>
       if String.eqb p "/srv/dashboard/data/2017/inventory_by_commodity.csv"
       then Parsed inventory_lowercase
       else Sample.fs p |}.

End Sample2.

(** The columns [load_data] looks up in the crop table and in the animal
    table. *)
Definition crop_required_columns : list string :=
  "FIPS" :: "county" :: crop_loss_columns.

Definition animal_required_columns : list string :=
  "FIPS" :: "county" :: animal_loss_columns.

(** [df'] holds the data of [df]: every column whose label does not start
    with [log_] is looked up in [df'] as in [df]. *)
Definition same_data (df df' : DataFrame) : Prop :=
  forall c, PyStr.startswith c "log_" = false ->
            Pandas.getitem df' c = Pandas.getitem df c.

(** [tab] holds the choropleth map of column [col] of [df]: the counties
    by [FIPS], named by [county], coloured by [np.log1p] of the column and
    showing the column itself on hover. *)
Definition is_log_map (df : DataFrame) (col label title : string) (tab : component)
  : Prop :=
  exists raw lg loc name,
    Pandas.getitem df col = Ok raw /\
    Pandas.np_log1p raw = Ok lg /\
    Pandas.getitem df "FIPS" = Ok loc /\
    Pandas.getitem df "county" = Ok name /\
    tab = Tab label [Graph (Choropleth title loc lg name (col, raw))].

(** [s] is the section of a stage, built from the table [df]: one map per
    flow column and the summary table of the stage. *)
Definition is_stage_section_of (df : DataFrame) (stage : string) (cols : list string)
           (s : component) : Prop :=
  exists tabs table,
    s = Div [H3 stage; Tabs tabs; Br; Div [DataTable table]] /\
    table_data df cols = Ok table /\
    Forall2 (fun col tab =>
               is_log_map df col (pretty_column col)
                          ("<b>" ++ pretty_column col ++ " - " ++ stage ++ "<b>")%string
                          tab)
            cols tabs.

(** Does row [i] have a grouping key? *)
Definition keyed (keys : Series) (i : nat) : bool :=
  match Pandas.key_of_cell (nth i keys NaN) with
  | Some _ => true
  | None => false
  end.

(** The rows that [groupby] keeps: those with a key. *)
Definition keyed_rows (keys : Series) : list nat :=
  filter (keyed keys) (seq 0 (length keys)).

(** [tab] is the tab of a production table [df]: the pie chart of column
    [values] by commodity, drawn from the values as they were read, and the
    table itself, its numbers rounded to two decimals; both carry the
    commodity labels in display form. *)
Definition is_production_tab (df : DataFrame) (label values title : string)
           (tab : component) : Prop :=
  exists raw_labels labels vals,
    Pandas.getitem df "Commodity" = Ok raw_labels /\
    pretty_commodity raw_labels = Ok labels /\
    Pandas.getitem df values = Ok vals /\
    tab = Tab label
            [ Graph (Pie title labels vals); Br;
              DataTable (Pandas.round_frame (Pandas.setitem df "Commodity" labels)) ].

(** The figures a component holds, in display order. *)
Fixpoint figures_of (c : component) : list figure :=
  match c with
  | Graph fig => [fig]
  | Tab _ children => flat_map figures_of children
  | Tabs children => flat_map figures_of children
  | Div children => flat_map figures_of children
  | _ => []
  end.

(** [fig] is a choropleth map coloured by [np.log1p] of the column it
    shows on hover. *)
Definition log_scaled (fig : figure) : Prop :=
  exists title loc color name col raw,
    fig = Choropleth title loc color name (col, raw) /\
    Pandas.np_log1p raw = Ok color.

(* ================================================================== *)
(** ** The interpreter and its objects *)

(** A DataFrame that a statement binds to a name is an object of the
    interpreter: the name holds its address, so two names can hold the same
    object, and [df[col] = s] or [df.columns = ...] changes the object for
    every name that holds it.  The objects of a request stay behind when the
    request returns.  A DataFrame that lives within one expression is a
    value, as before. *)
Definition ref : Type := nat.

(** The process that serves the requests: the world, the objects by
    address, and the next free address. *)
Record process : Type := {
  env : world;
  objects : ref -> DataFrame;
  next_ref : ref
}.

(** A computation that may raise and that runs in the process. *)
Definition P (A : Type) : Type := process -> result A * process.

Definition pbind {A B} (m : P A) (k : A -> P B) : P B :=
  fun p =>
    match m p with
    | (Ok a, p') => k a p'
    | (Raise e, p') => (Raise e, p')
    end.

Definition pure_ {A} (r : result A) : P A := fun p => (r, p).

Notation "'let&' x ':=' c 'in' k" := (pbind c (fun x => k))
  (at level 10, x pattern, c at level 100, k at level 200) : res_scope.

Fixpoint pfoldM {A S} (f : S -> A -> P S) (l : list A) (s : S) : P S :=
  match l with
  | [] => pure_ (Ok s)
  | a :: l' => let& s' := f s a in pfoldM f l' s'
  end.

Module Obj.

(** The process with [df] at address [r]. *)
Definition store (p : process) (r : ref) (df : DataFrame) : process :=
  {| env := env p;
     objects := fun r' => if r' =? r then df else objects p r';
     next_ref := next_ref p |}.

(** A new object. *)
Definition new (df : DataFrame) : P ref :=
  fun p =>
    (Ok (next_ref p),
     {| env := env p;
        objects := fun r' => if r' =? next_ref p then df else objects p r';
        next_ref := S (next_ref p) |}).

(** The object a name holds. *)
Definition get (r : ref) : P DataFrame := fun p => (Ok (objects p r), p).

(** An operation that changes the object in place; the object stays as it
    was when the operation raises. *)
Definition modify (r : ref) (f : DataFrame -> result DataFrame) : P unit :=
  fun p =>
    match f (objects p r) with
    | Ok df => (Ok tt, store p r df)
    | Raise e => (Raise e, p)
    end.

End Obj.

(** The names [load_data] returns. *)
Record loaded_refs : Type := {
  nitrogen_ref : ref;
  area_ref : ref;
  inventory_ref : ref;
  crop_ref : ref;
  animal_ref : ref;
  total_ref : ref
}.

Module Process.

(** [pd.read_csv(path)]: a new object for the table of the file. *)
Definition read_csv (path : string) : P ref :=
  fun p =>
    match files (env p) path with
    | Absent => (Raise (FileNotFoundError path), p)
    | Garbled => (Raise (ParserError path), p)
    | Parsed df => Obj.new df p
    end.

Definition get_data_path (year : string) : P string :=
  fun p => (dict_get (data_paths (env p)) year, p).

Definition load_data (year : string) : P loaded_refs :=
  let& path := get_data_path year in
  let& nitrogen_df := read_csv (path_join path "nitrogen_losses_summary.csv") in
  let& area_df := read_csv (path_join path "harvested_area_by_commodity.csv") in
  let& inventory_df := read_csv (path_join path "inventory_by_commodity.csv") in
  let& crop_processing_nitrogen_df :=
    read_csv (path_join path "crop_processing_nitrogen.csv") in
  let& animal_stage_nitrogen_df :=
    read_csv (path_join path "animal_stage_nitrogen.csv") in
  let& _ := Obj.modify crop_processing_nitrogen_df rename_columns in
  let& _ := Obj.modify animal_stage_nitrogen_df rename_columns in
  let& _ := Obj.modify crop_processing_nitrogen_df
              (fun df => add_total df crop_loss_columns) in
  let& _ := Obj.modify animal_stage_nitrogen_df
              (fun df => add_total df animal_loss_columns) in
  let& crop := Obj.get crop_processing_nitrogen_df in
  let& animal := Obj.get animal_stage_nitrogen_df in
  let& total := pure_ (total_nitrogen crop animal) in
  let& total_nitrogen_df := Obj.new total in
  pure_ (Ok {| nitrogen_ref := nitrogen_df;
               area_ref := area_df;
               inventory_ref := inventory_df;
               crop_ref := crop_processing_nitrogen_df;
               animal_ref := animal_stage_nitrogen_df;
               total_ref := total_nitrogen_df |}).

(** One turn of the loop over [nitrogen_loss_labels]: [df] is the name
    [crop_df] or the name [animal_df], and the assignment changes the object
    behind it. *)
Definition loss_tab (crop_df animal_df : ref) (tabs : list component)
           (e : nat * (string * string)) : P (list component) :=
  let i := fst e in
  let col := fst (snd e) in
  let label := snd (snd e) in
  let df := if i <? 2 then crop_df else animal_df in
  let title := ("<b>" ++ label ++ "</b>")%string in
  let& _ := Obj.modify df (fun d => add_log d col) in
  let& d := Obj.get df in
  let& fig := pure_ (px_choropleth d ("log_" ++ col)%string col title) in
  pure_ (Ok (tabs ++ [Tab label [Graph fig]])).

(** One turn of the inner loop of a stage. *)
Definition stage_tab (stage : string) (stage_df : ref) (stage_tabs : list component)
           (col : string) : P (list component) :=
  let& _ := Obj.modify stage_df (fun d => add_log d col) in
  let title := ("<b>" ++ pretty_column col ++ " - " ++ stage ++ "<b>")%string in
  let& d := Obj.get stage_df in
  let& fig := pure_ (px_choropleth d ("log_" ++ col)%string col title) in
  pure_ (Ok (stage_tabs ++ [Tab (pretty_column col) [Graph fig]])).

(** The summary table of a stage: a new object, changed in place three
    times. *)
Definition table_data (stage_df : ref) (cols : list string) : P ref :=
  let& d := Obj.get stage_df in
  let& t := pure_ (Pandas.groupby_agg d "commodity"
                     (map (fun c => (c, Pandas.AggSum)) cols)) in
  let& table_data := Obj.new t in
  let& _ := Obj.modify table_data (fun t => millions_columns t cols) in
  let& _ := Obj.modify table_data
              (fun t =>
                 let* commodity := Pandas.getitem t "commodity" in
                 let* commodity := pretty_commodity commodity in
                 Ok (Pandas.setitem t "commodity" commodity)) in
  let& _ := Obj.modify table_data (fun t => Pandas.set_columns t table_headers) in
  pure_ (Ok table_data).

(** One turn of the loop over the stages: [stage_df] is the name
    [crop_df] for the first stage and the name [animal_df] for the other
    two. *)
Definition stage_section (crop_df animal_df : ref) (sections : list component)
           (e : nat * (string * list string)) : P (list component) :=
  let idx := fst e in
  let stage := fst (snd e) in
  let cols := snd (snd e) in
  let stage_df := if idx =? 0 then crop_df else animal_df in
  let& stage_tabs := pfoldM (stage_tab stage stage_df) cols [] in
  let& table_data := table_data stage_df cols in
  let& table := Obj.get table_data in
  pure_ (Ok (sections ++
             [Div [H3 stage; Tabs stage_tabs; Br; Div [DataTable table]]])).

Definition inventory_harvest (inventory_df area_df : ref) : P component :=
  let& _ := Obj.modify inventory_df format_commodity in
  let& _ := Obj.modify area_df format_commodity in
  let& inventory := Obj.get inventory_df in
  let& area := Obj.get area_df in
  let& inventory_chart :=
    pure_ (px_pie inventory "Commodity" "Total Inventory (head)"
                  "<b>Inventory by Commodity<b>") in
  let& area_chart :=
    pure_ (px_pie area "Commodity" "Total Harvested Area (Acre)"
                  "<b> Harvested Area by Commodity <b>") in
  let& area_df := Obj.new (Pandas.round_frame area) in
  let& inventory_df := Obj.new (Pandas.round_frame inventory) in
  let& inventory := Obj.get inventory_df in
  let& area := Obj.get area_df in
  pure_ (Ok (Div [ H2 "What Are the Production Totals for Crops and Animals in the Chesapeake Bay?"
                      "area-inventory";
                   Tabs [ Tab "Inventory" [Graph inventory_chart; Br; DataTable inventory];
                          Tab "Harvested Area" [Graph area_chart; Br; DataTable area] ] ])).

Definition update_dashboard (selected_year : string) : P outputs :=
  let& d := load_data selected_year in
  let crop_df := crop_ref d in
  let animal_df := animal_ref d in
  let total_nitrogen_df := total_ref d in
  let& tabs := pfoldM (loss_tab crop_df animal_df) (enumerate nitrogen_loss_labels) [] in
  let& _ := Obj.modify total_nitrogen_df (fun t => add_log t "total_nitrogen_loss") in
  let& total := Obj.get total_nitrogen_df in
  let& total_loss_fig :=
    pure_ (px_choropleth total "log_total_nitrogen_loss" "total_nitrogen_loss"
                         "<b>Total Nitrogen Loss by County</b>") in
  let tabs := tabs ++ [Tab "Total Nitrogen Loss" [Graph total_loss_fig]] in
  let maps :=
    Div [ H2 "In What Stage Is Nitrogen Lost in the Food and Animal Supply Chain?"
             "nitrogen-loss";
          Tabs tabs ] in
  let& crop := Obj.get crop_df in
  let& animal := Obj.get animal_df in
  let& loss_table :=
    pure_ (nitrogen_loss_table {| crop_df := crop; animal_df := animal |}) in
  let& nitrogen_loss_table := Obj.new loss_table in
  let& loss_table := Obj.get nitrogen_loss_table in
  let nitrogen_loss_table_component := DataTable loss_table in
  let nitrogen_loss_location_heading :=
    H2 "Where Does Nitrogen Loss Occur in the Chesapeake Bay?" "trade-behavior" in
  let& sections := pfoldM (stage_section crop_df animal_df) (enumerate stages) [] in
  let import_export_content := Div (nitrogen_loss_location_heading :: sections) in
  let& inventory_harvest_section :=
    inventory_harvest (inventory_ref d) (area_ref d) in
  pure_ (Ok (maps, nitrogen_loss_table_component, import_export_content, [],
             inventory_harvest_section)).

Definition update_dashboard_wrapper (selected_year : string) : P page :=
  let& out := update_dashboard selected_year in
  pure_ (let '(o1, o2, o3, o4, o5) := out in
         Ok {| chloropleth_maps := o1;
               nitrogen_loss_table_children := o2;
               import_export_tables := o3;
               import_export_maps := o4;
               inventory_harvest_section := o5 |}).

End Process.

(** The process when the first request comes in: no object yet. *)
Definition start (w : world) : process :=
  {| env := w; objects := fun _ => []; next_ref := 0 |}.

(* ================================================================== *)
(** * Properties *)

(** ** Evaluation on small inputs *)

Example replace_selfloop :
  PyStr.replace "selfloop_meat_nitrogen" "selfloop" "within_county"
  = "within_county_meat_nitrogen".
Proof. reflexivity. Qed.

Example replace_underscores :
  PyStr.replace (PyStr.title "dairy_cattle") "_" " " = "Dairy Cattle".
Proof. reflexivity. Qed.

Example title_mixed : PyStr.title "hELLO wORLD_x1y" = "Hello World_X1Y".
Proof. reflexivity. Qed.

Example replace_empty_old : PyStr.replace "abc" "" "-" = "-a-b-c-".
Proof. reflexivity. Qed.

Example rint_half_even :
  (rint (5 # 2), rint (7 # 2), rint (-5 # 2), rint (13 # 5)) = (2, 4, -2, 3)%Z.
Proof. reflexivity. Qed.

Example rn_tenth : rn (1 # 10) = (3602879701896397 # 36028797018963968)%Q.
Proof. vm_compute. reflexivity. Qed.

Example round2_example : round2 (div_million (1500000 # 1)) = (3 # 2)%Q.
Proof. vm_compute. reflexivity. Qed.

(** The binary64 number next to 1.015 lies below it, and so does its
    hundredfold below 101.5. *)
Example round2_below_tie : round2 (div_million (1015000 # 1)) = rn (101 # 100).
Proof. vm_compute. reflexivity. Qed.

(** The hundredfold of the binary64 number next to 16.055 rounds to 1605.5,
    a tie: [np.round(16.055, 2)] is [16.06], where Python's [round] on a
    [float] gives [16.05]. *)
Example round2_numpy : round2 (16055 # 1000) = rn (1606 # 100).
Proof. vm_compute. reflexivity. Qed.

Example path_join_example :
  path_join (path_join "/srv/dashboard" "data") "2017" = Sample.dir.
Proof. reflexivity. Qed.

(** ** The error monad *)

Lemma rbind_Ok {A B} (r : result A) (k : A -> result B) (b : B) :
  rbind r k = Ok b -> exists a, r = Ok a /\ k a = Ok b.
Proof.
  destruct r as [a | e]; simpl; intros H.
  - exists a. split; [reflexivity | exact H].
  - discriminate.
Qed.

(** Splits every successful bind among the hypotheses. *)
Ltac inv_ok :=
  repeat match goal with
    | H : rbind _ _ = Ok _ |- _ =>
        let a := fresh "a" in
        let Ha := fresh "Ha" in
        apply rbind_Ok in H; destruct H as (a & Ha & H)
    | H : Ok _ = Ok _ |- _ => injection H as H
    | H : Raise _ = Ok _ |- _ => discriminate H
    end.

Lemma mapM_length {A B} (f : A -> result B) (l : list A) (l' : list B) :
  mapM f l = Ok l' -> length l' = length l.
Proof.
  revert l'. induction l as [| a l IH]; simpl; intros l' H.
  - inv_ok. subst. reflexivity.
  - inv_ok. subst. simpl. f_equal. eauto.
Qed.

Lemma mapM_nth_error {A B} (f : A -> result B) (l : list A) (l' : list B) :
  mapM f l = Ok l' ->
  forall i a, nth_error l i = Some a ->
              exists b, nth_error l' i = Some b /\ f a = Ok b.
Proof.
  revert l'. induction l as [| x l IH]; simpl; intros l' H i a Hi.
  - destruct i; discriminate.
  - inv_ok. subst. destruct i as [| i]; simpl in *.
    + injection Hi as ->. eauto.
    + eauto.
Qed.

Lemma mapM_total {A B} (f : A -> result B) (l : list A) :
  (forall a, In a l -> exists b, f a = Ok b) -> exists l', mapM f l = Ok l'.
Proof.
  induction l as [| a l IH]; simpl; intros H.
  - eauto.
  - destruct (H a (or_introl eq_refl)) as (b & ->).
    destruct IH as (l' & ->); [intros; apply H; now right |].
    simpl. eauto.
Qed.

(** ** Python strings *)

Lemma replace_from_skip old new k s :
  PyStr.replace_from old new k s = PyStr.replace_from old new 0 (PyStr.drop k s).
Proof.
  revert k. induction s as [| c s IH]; intros [| k]; try reflexivity.
  simpl PyStr.drop. rewrite <- IH. reflexivity.
Qed.

Lemma replace_from_absent old new s :
  PyStr.occurs old s = false -> PyStr.replace_from old new 0 s = s.
Proof.
  induction s as [| c s IH]; intros H.
  - reflexivity.
  - cbn [PyStr.occurs] in H. apply orb_false_iff in H as [Hp Ho].
    cbn [PyStr.replace_from]. rewrite Hp, IH by assumption. reflexivity.
Qed.

Lemma prefix_append (a b : string) : String.prefix a (a ++ b) = true.
Proof.
  induction a as [| c a IH]; simpl.
  - destruct b; reflexivity.
  - destruct (ascii_dec c c); [exact IH | congruence].
Qed.

(** When [old] is a prefix of [s] and does not occur again behind it,
    [replace] swaps just the prefix. *)
Lemma replace_prefix_only old new s :
  old <> "" ->
  String.prefix old s = true ->
  PyStr.occurs old (PyStr.drop (String.length old) s) = false ->
  PyStr.replace s old new = (new ++ PyStr.drop (String.length old) s)%string.
Proof.
  intros Hold Hp Ho.
  unfold PyStr.replace. destruct old as [| c0 old]; [congruence |].
  destruct s as [| c s]; [discriminate |].
  cbn [PyStr.replace_from]. rewrite Hp.
  rewrite replace_from_skip.
  cbn [String.length PyStr.drop] in *.
  replace (S (String.length old) - 1) with (String.length old) by lia.
  rewrite replace_from_absent by assumption. reflexivity.
Qed.

(** ** Renaming the columns *)

Lemma columns_combine (names : list string) (vals : list Series) :
  length names = length vals ->
  Pandas.columns (combine names vals) = names /\
  Pandas.values (combine names vals) = vals.
Proof.
  revert vals. induction names as [| n names IH]; intros [| v vals] H;
    try discriminate; simpl.
  - split; reflexivity.
  - injection H as H. destruct (IH vals H) as [-> ->]. split; reflexivity.
Qed.

Lemma set_columns_Ok (df : DataFrame) (names : list string) :
  length names = length df ->
  exists df', Pandas.set_columns df names = Ok df' /\
              Pandas.columns df' = names /\
              Pandas.values df' = Pandas.values df.
Proof.
  intros H. unfold Pandas.set_columns.
  rewrite (proj2 (Nat.eqb_eq _ _) H).
  eexists. split; [reflexivity |].
  apply columns_combine. unfold Pandas.values. rewrite length_map. exact H.
Qed.

Lemma rename_columns_Ok (df : DataFrame) :
  exists df', rename_columns df = Ok df' /\
              Pandas.columns df' = map rename_column (Pandas.columns df) /\
              Pandas.values df' = Pandas.values df.
Proof.
  apply set_columns_Ok. unfold Pandas.columns. now rewrite !length_map.
Qed.

(** C6 as stated fails: a label that starts with [selfloop] and holds the
    word a second time has both occurrences replaced, not only the
    prefix. *)
Lemma rename_not_prefix_only :
  exists df df',
    rename_columns df = Ok df' /\
    nth_error (Pandas.columns df) 0 = Some "selfloop_to_selfloop" /\
    PyStr.startswith "selfloop_to_selfloop" "selfloop" = true /\
    nth_error (Pandas.columns df') 0 <> Some (replace_prefix "selfloop_to_selfloop") /\
    nth_error (Pandas.columns df') 0 = Some "within_county_to_within_county".
Proof.
  exists [("selfloop_to_selfloop", [Num 1])].
  eexists. split; [reflexivity |].
  repeat split; discriminate.
Qed.

(** C6 (amended): loading renames the columns position by position.  A
    label that starts with [selfloop] gets every occurrence of [selfloop]
    replaced by [within_county] (which is the replacement of the prefix
    when the word does not occur again behind it); every other label is
    kept; the number and order of the columns and every cell stay as they
    were. *)
Theorem rename_columns_spec (df : DataFrame) :
  exists df',
    rename_columns df = Ok df' /\
    Pandas.values df' = Pandas.values df /\
    length (Pandas.columns df') = length (Pandas.columns df) /\
    forall i col,
      nth_error (Pandas.columns df) i = Some col ->
      exists col',
        nth_error (Pandas.columns df') i = Some col' /\
        (PyStr.startswith col "selfloop" = true ->
         col' = PyStr.replace col "selfloop" "within_county" /\
         PyStr.startswith col' "within_county" = true /\
         (PyStr.occurs "selfloop" (PyStr.drop 8 col) = false ->
          col' = replace_prefix col)) /\
        (PyStr.startswith col "selfloop" = false -> col' = col).
Proof.
  destruct (rename_columns_Ok df) as (df' & Hok & Hcols & Hvals).
  exists df'. split; [exact Hok |]. split; [exact Hvals |].
  rewrite Hcols. split; [apply length_map |].
  intros i col Hi. exists (rename_column col).
  split; [now apply map_nth_error |].
  unfold rename_column. split; intros Hs; rewrite Hs.
  - split; [reflexivity |].
    assert (Hfirst : forall s, String.prefix "selfloop" s = true ->
                PyStr.replace s "selfloop" "within_county"
                = ("within_county"
                     ++ PyStr.replace_from "selfloop" "within_county" 0
                          (PyStr.drop 8 s))%string).
    { intros s Hp. destruct s as [| c s]; [discriminate |].
      unfold PyStr.replace. cbn [PyStr.replace_from]. rewrite Hp.
      rewrite replace_from_skip. reflexivity. }
    split.
    + rewrite Hfirst by exact Hs. apply prefix_append.
    + intros Ho. apply replace_prefix_only; [discriminate | exact Hs | exact Ho].
  - reflexivity.
Qed.

(** ** Columns of a frame *)

Lemma getitem_In (df : DataFrame) (c : string) (s : Series) :
  Pandas.getitem df c = Ok s -> In (c, s) df.
Proof.
  unfold Pandas.getitem. intros H.
  destruct (filter (Pandas.labelled c) df) as [| [n s0] [| p l]] eqn:E;
    try discriminate.
  injection H as ->.
  assert (Hin : In (n, s) (filter (Pandas.labelled c) df)) by (rewrite E; now left).
  apply filter_In in Hin as [Hin Hl].
  unfold Pandas.labelled in Hl. simpl in Hl. apply String.eqb_eq in Hl. now subst.
Qed.

Lemma filter_setitem_other (df : DataFrame) (c c' : string) (s : Series) :
  c <> c' ->
  filter (Pandas.labelled c') (Pandas.setitem df c s) = filter (Pandas.labelled c') df.
Proof.
  intros Hne. unfold Pandas.setitem.
  destruct (Pandas.has_column df c).
  - induction df as [| [n v] df IH]; [reflexivity |].
    cbn [map filter]. rewrite IH. unfold Pandas.labelled. cbn [fst].
    destruct (String.eqb_spec n c) as [-> | Hn]; cbn [fst].
    + destruct (String.eqb_spec c c'); [contradiction | reflexivity].
    + reflexivity.
  - rewrite filter_app. cbn [filter]. unfold Pandas.labelled at 2. cbn [fst].
    destruct (String.eqb_spec c c'); [contradiction |]. apply app_nil_r.
Qed.

Lemma getitem_setitem_other (df : DataFrame) (c c' : string) (s : Series) :
  c <> c' ->
  Pandas.getitem (Pandas.setitem df c s) c' = Pandas.getitem df c'.
Proof.
  intros H. unfold Pandas.getitem. now rewrite filter_setitem_other.
Qed.

Lemma setitem_labelled (df : DataFrame) (c : string) (s : Series) (p : string * Series) :
  In p (Pandas.setitem df c s) -> Pandas.labelled c p = true -> snd p = s.
Proof.
  unfold Pandas.setitem. destruct (Pandas.has_column df c) eqn:Hc; intros Hin Hl.
  - apply in_map_iff in Hin as (p0 & <- & _).
    destruct (Pandas.labelled c p0) eqn:E; [reflexivity |].
    rewrite E in Hl. discriminate.
  - apply in_app_iff in Hin as [Hin | [<- | []]]; [| reflexivity].
    exfalso. unfold Pandas.has_column in Hc.
    assert (existsb (String.eqb c) (Pandas.columns df) = true); [| congruence].
    apply existsb_exists. exists (fst p). split.
    + unfold Pandas.columns. now apply in_map.
    + unfold Pandas.labelled in Hl. now rewrite String.eqb_sym.
Qed.

Lemma getitem_setitem_same (df : DataFrame) (c : string) (s s' : Series) :
  Pandas.getitem (Pandas.setitem df c s) c = Ok s' -> s' = s.
Proof.
  intros H. apply getitem_In in H.
  apply (setitem_labelled df c s (c, s')) in H; [exact H |].
  unfold Pandas.labelled. apply String.eqb_refl.
Qed.

Lemma mapM_ext_in {A B} (f g : A -> result B) (l : list A) :
  (forall a, In a l -> f a = g a) -> mapM f l = mapM g l.
Proof.
  induction l as [| a l IH]; intros H; simpl; [reflexivity |].
  rewrite (H a) by now left. rewrite IH; [reflexivity |].
  intros x Hx. apply H. now right.
Qed.

Lemma has_column_filter (df : DataFrame) (c : string) :
  Pandas.has_column df c
  = match filter (Pandas.labelled c) df with [] => false | _ => true end.
Proof.
  unfold Pandas.has_column, Pandas.columns, Pandas.labelled.
  induction df as [| [n s] df IH]; [reflexivity |].
  cbn [map existsb filter fst]. rewrite (String.eqb_sym c n).
  destruct (String.eqb n c); [reflexivity | exact IH].
Qed.

Lemma has_column_getitem (df : DataFrame) (c : string) :
  Pandas.has_column df c
  = match Pandas.getitem df c with Raise (KeyError _) => false | _ => true end.
Proof.
  rewrite has_column_filter. unfold Pandas.getitem.
  destruct (filter (Pandas.labelled c) df) as [| [n s] [| p l]]; reflexivity.
Qed.

Lemma select_Ok_columns (df sel : DataFrame) (cols : list string) :
  Pandas.select df cols = Ok sel -> Pandas.select_columns df cols = Ok sel.
Proof.
  unfold Pandas.select.
  destruct (filter (fun c => negb (Pandas.has_column df c)) cols);
    [tauto | discriminate].
Qed.


Lemma select_columns_present (df sel : DataFrame) (cols : list string) :
  Pandas.select_columns df cols = Ok sel ->
  forall c, In c cols -> Pandas.has_column df c = true.
Proof.
  unfold Pandas.select_columns. revert sel.
  induction cols as [| c cols IH]; intros sel H x Hx; [contradiction |].
  cbn [mapM] in H.
  apply rbind_Ok in H as (p & Hp & H). apply rbind_Ok in Hp as (s & Hs & _).
  apply rbind_Ok in H as (sel' & Hsel & _).
  destruct Hx as [<- | Hx]; [| eauto].
  rewrite has_column_getitem, Hs. reflexivity.
Qed.


Lemma select_ext (df df' : DataFrame) (cols : list string) :
  (forall c, In c cols -> Pandas.getitem df' c = Pandas.getitem df c) ->
  Pandas.select df' cols = Pandas.select df cols.
Proof.
  intros H. unfold Pandas.select, Pandas.select_columns.
  rewrite (filter_ext_in (fun c => negb (Pandas.has_column df' c))
                         (fun c => negb (Pandas.has_column df c)));
    [| intros c Hc; now rewrite !has_column_getitem, (H c Hc)].
  rewrite (mapM_ext_in (fun c => let* s := Pandas.getitem df' c in Ok (c, s))
                       (fun c => let* s := Pandas.getitem df c in Ok (c, s)));
    [reflexivity |].
  intros c Hc. now rewrite (H c Hc).
Qed.

(** ** Sums that skip missing cells *)

Lemma sum_from_value (s : Series) (acc t : Q) :
  Pandas.sum_from acc s = Ok t -> (t == acc + total_value s)%Q.
Proof.
  revert acc. induction s as [| c s IH]; intros acc H; simpl in *.
  - injection H as <-. ring.
  - apply rbind_Ok in H as (acc' & Hc & H). apply IH in H. rewrite H.
    destruct c; simpl in Hc; try discriminate; injection Hc as <-; simpl; ring.
Qed.

Lemma series_sum_value (s : Series) (t : Q) :
  Pandas.series_sum s = Ok t -> (t == total_value s)%Q.
Proof.
  intros H. apply sum_from_value in H. rewrite H. ring.
Qed.

Lemma nth_error_seq (start len i : nat) :
  i < len -> nth_error (seq start len) i = Some (start + i).
Proof.
  intros H. rewrite nth_error_nth' with (d := 0) by (now rewrite length_seq).
  now rewrite seq_nth.
Qed.

(** The cells of [df.sum(axis=1)], row by row. *)
Lemma sum_axis1_rows (df : DataFrame) (t : Series) :
  Pandas.sum_axis1 df = Ok t ->
  length t = Pandas.nrows df /\
  forall i, i < Pandas.nrows df ->
            exists q, nth_error t i = Some (Num q) /\
                      (q == total_value (Pandas.row df i))%Q.
Proof.
  unfold Pandas.sum_axis1. intros H. split.
  - apply mapM_length in H. now rewrite length_seq in H.
  - intros i Hi.
    destruct (mapM_nth_error _ _ _ H i i) as (b & Hb & Hf).
    { now apply (nth_error_seq 0). }
    apply rbind_Ok in Hf as (q & Hq & Hf). injection Hf as <-.
    exists q. split; [exact Hb | now apply series_sum_value].
Qed.

(** What [add_total] leaves in the frame. *)
Lemma add_total_spec (df df' : DataFrame) (cols : list string) :
  add_total df cols = Ok df' ->
  ~ In "total_nitrogen_loss" cols ->
  exists sel t,
    Pandas.select df cols = Ok sel /\
    Pandas.sum_axis1 sel = Ok t /\
    df' = Pandas.setitem df "total_nitrogen_loss" t /\
    Pandas.select df' cols = Ok sel.
Proof.
  unfold add_total. intros H Hnot.
  apply rbind_Ok in H as (sel & Hsel & H).
  apply rbind_Ok in H as (t & Ht & H). injection H as <-.
  exists sel, t. split; [exact Hsel |]. split; [exact Ht |]. split; [reflexivity |].
  rewrite <- Hsel. apply select_ext.
  intros c Hc. apply getitem_setitem_other. intros <-. contradiction.
Qed.

(** ** What a successful load went through *)

Lemma derive_inv (n a i c an : DataFrame) (d : loaded) :
  derive n a i c an = Ok d ->
  exists crop1 animal1 crop2 animal2 total,
    rename_columns c = Ok crop1 /\
    rename_columns an = Ok animal1 /\
    add_total crop1 crop_loss_columns = Ok crop2 /\
    add_total animal1 animal_loss_columns = Ok animal2 /\
    total_nitrogen crop2 animal2 = Ok total /\
    d = {| nitrogen_df := n; area_df := a; inventory_df := i;
           crop_processing_nitrogen_df := crop2;
           animal_stage_nitrogen_df := animal2;
           total_nitrogen_df := total |}.
Proof.
  unfold derive. intros H.
  apply rbind_Ok in H as (crop1 & H1 & H).
  apply rbind_Ok in H as (animal1 & H2 & H).
  apply rbind_Ok in H as (crop2 & H3 & H).
  apply rbind_Ok in H as (animal2 & H4 & H).
  apply rbind_Ok in H as (total & H5 & H).
  injection H as <-.
  exists crop1, animal1, crop2, animal2, total. repeat split; assumption.
Qed.

(** The path of a source file of a scenario. *)
Lemma load_data_inv (year : string) (w : world) (d : loaded) :
  fst (load_data year w) = Ok d ->
  exists path n a i c an,
    dict_get (data_paths w) year = Ok path /\
    files w (path_join path "nitrogen_losses_summary.csv") = Parsed n /\
    files w (path_join path "harvested_area_by_commodity.csv") = Parsed a /\
    files w (path_join path "inventory_by_commodity.csv") = Parsed i /\
    files w (path_join path "crop_processing_nitrogen.csv") = Parsed c /\
    files w (path_join path "animal_stage_nitrogen.csv") = Parsed an /\
    derive n a i c an = Ok d.
Proof.
  unfold load_data, mbind, get_data_path, read_csv, lift.
  destruct (dict_get (data_paths w) year) as [path |] eqn:Hp; [| discriminate].
  destruct (files w (path_join path "nitrogen_losses_summary.csv"))
    as [| | n] eqn:Hn; try discriminate.
  destruct (files w (path_join path "harvested_area_by_commodity.csv"))
    as [| | a] eqn:Ha; try discriminate.
  destruct (files w (path_join path "inventory_by_commodity.csv"))
    as [| | i] eqn:Hi; try discriminate.
  destruct (files w (path_join path "crop_processing_nitrogen.csv"))
    as [| | c] eqn:Hc; try discriminate.
  destruct (files w (path_join path "animal_stage_nitrogen.csv"))
    as [| | an] eqn:Han; try discriminate.
  cbn [fst]. intros H. exists path, n, a, i, c, an.
  repeat (split; [assumption || reflexivity |]). exact H.
Qed.

Lemma total_nitrogen_columns (crop animal total : DataFrame) :
  total_nitrogen crop animal = Ok total ->
  exists cF cC cT aF aC aT,
    Pandas.getitem crop "FIPS" = Ok cF /\
    Pandas.getitem crop "county" = Ok cC /\
    Pandas.getitem crop "total_nitrogen_loss" = Ok cT /\
    Pandas.getitem animal "FIPS" = Ok aF /\
    Pandas.getitem animal "county" = Ok aC /\
    Pandas.getitem animal "total_nitrogen_loss" = Ok aT /\
    Pandas.groupby_agg
      [("FIPS", cF ++ aF); ("county", cC ++ aC); ("total_nitrogen_loss", cT ++ aT)]
      "FIPS" [("total_nitrogen_loss", Pandas.AggSum); ("county", Pandas.AggFirst)]
    = Ok total.
Proof.
  unfold total_nitrogen. intros H.
  apply rbind_Ok in H as (c & Hc & H). apply rbind_Ok in H as (a & Ha & H).
  apply select_Ok_columns in Hc, Ha.
  unfold Pandas.select_columns, county_total_columns in Hc, Ha.
  cbn [mapM] in Hc, Ha.
  apply rbind_Ok in Hc as (x1 & Hc1 & Hc). apply rbind_Ok in Hc1 as (cF & HcF & Hc1).
  apply rbind_Ok in Hc as (l1 & Hc2 & Hc). apply rbind_Ok in Hc2 as (x2 & Hc2 & Hl1).
  apply rbind_Ok in Hc2 as (cC & HcC & Hc2).
  apply rbind_Ok in Hl1 as (l2 & Hc3 & Hl1). apply rbind_Ok in Hc3 as (x3 & Hc3 & Hl2).
  apply rbind_Ok in Hc3 as (cT & HcT & Hc3).
  apply rbind_Ok in Ha as (y1 & Ha1 & Ha). apply rbind_Ok in Ha1 as (aF & HaF & Ha1).
  apply rbind_Ok in Ha as (m1 & Ha2 & Ha). apply rbind_Ok in Ha2 as (y2 & Ha2 & Hm1).
  apply rbind_Ok in Ha2 as (aC & HaC & Ha2).
  apply rbind_Ok in Hm1 as (m2 & Ha3 & Hm1). apply rbind_Ok in Ha3 as (y3 & Ha3 & Hm2).
  apply rbind_Ok in Ha3 as (aT & HaT & Ha3).
  exists cF, cC, cT, aF, aC, aT. repeat (split; [assumption |]).
  rewrite <- H. inv_ok. subst. reflexivity.
Qed.

(** ** The total-loss columns *)

Lemma add_total_rows (df df' : DataFrame) (cols : list string) (t : Series) :
  add_total df cols = Ok df' ->
  ~ In "total_nitrogen_loss" cols ->
  Pandas.getitem df' "total_nitrogen_loss" = Ok t ->
  exists sel,
    Pandas.select df' cols = Ok sel /\
    length t = Pandas.nrows sel /\
    forall i, i < Pandas.nrows sel ->
              exists q, nth_error t i = Some (Num q) /\
                        (q == total_value (Pandas.row sel i))%Q.
Proof.
  intros H Hnot Ht.
  destruct (add_total_spec _ _ _ H Hnot) as (sel & t0 & _ & Hsum & -> & Hsel').
  apply getitem_setitem_same in Ht. subst t0.
  exists sel. split; [exact Hsel' |]. now apply sum_axis1_rows.
Qed.

(** C2: in the tables [load_data] returns, for every scenario and every
    row, the crop-stage [total_nitrogen_loss] is [nitrogen_loss1 +
    nitrogen_loss2] and the animal-stage [total_nitrogen_loss] is
    [nitrogen_loss3 + nitrogen_loss4 + nitrogen_loss5 + nitrogen_loss6 +
    nitrogen_loss7]; no other column enters the sum, and a missing cell adds
    nothing to it. *)
Theorem total_loss_is_sum_of_stage_losses (year : string) (w : world) (d : loaded) :
  fst (load_data year w) = Ok d ->
  (exists l1 l2 t,
      Pandas.getitem (crop_processing_nitrogen_df d) "nitrogen_loss1" = Ok l1 /\
      Pandas.getitem (crop_processing_nitrogen_df d) "nitrogen_loss2" = Ok l2 /\
      Pandas.getitem (crop_processing_nitrogen_df d) "total_nitrogen_loss" = Ok t /\
      length t = length l1 /\
      forall i, i < length t ->
        exists q, nth_error t i = Some (Num q) /\
                  (q == cell_value (nth i l1 NaN) + cell_value (nth i l2 NaN))%Q) /\
  (exists l3 l4 l5 l6 l7 t,
      Pandas.getitem (animal_stage_nitrogen_df d) "nitrogen_loss3" = Ok l3 /\
      Pandas.getitem (animal_stage_nitrogen_df d) "nitrogen_loss4" = Ok l4 /\
      Pandas.getitem (animal_stage_nitrogen_df d) "nitrogen_loss5" = Ok l5 /\
      Pandas.getitem (animal_stage_nitrogen_df d) "nitrogen_loss6" = Ok l6 /\
      Pandas.getitem (animal_stage_nitrogen_df d) "nitrogen_loss7" = Ok l7 /\
      Pandas.getitem (animal_stage_nitrogen_df d) "total_nitrogen_loss" = Ok t /\
      length t = length l3 /\
      forall i, i < length t ->
        exists q, nth_error t i = Some (Num q) /\
                  (q == cell_value (nth i l3 NaN) + cell_value (nth i l4 NaN)
                        + cell_value (nth i l5 NaN) + cell_value (nth i l6 NaN)
                        + cell_value (nth i l7 NaN))%Q).
Proof.
  intros H.
  apply load_data_inv in H as (path & n & a & i0 & c & an & _ & _ & _ & _ & _ & _ & H).
  apply derive_inv in H
      as (crop1 & animal1 & crop2 & animal2 & total & _ & _ & Hc & Ha & Ht & ->).
  cbn [crop_processing_nitrogen_df animal_stage_nitrogen_df].
  apply total_nitrogen_columns in Ht
      as (cF & cC & cT & aF & aC & aT & _ & _ & HcT & _ & _ & HaT & _).
  split.
  - destruct (add_total_rows _ _ _ cT Hc) as (sel & Hsel & Hlen & Hrows);
      [ simpl; intuition discriminate | exact HcT | ].
    apply select_Ok_columns in Hsel.
    unfold Pandas.select_columns, crop_loss_columns in Hsel. cbn [mapM] in Hsel.
    apply rbind_Ok in Hsel as (x1 & H1 & Hsel). apply rbind_Ok in H1 as (l1 & Hl1 & H1).
    apply rbind_Ok in Hsel as (r1 & H2 & Hsel). apply rbind_Ok in H2 as (x2 & H2 & Hr1).
    apply rbind_Ok in H2 as (l2 & Hl2 & H2).
    inv_ok. subst.
    exists l1, l2, cT. do 3 (split; [assumption |]).
    cbn [Pandas.nrows] in Hlen, Hrows. split; [exact Hlen |].
    intros i Hi. rewrite Hlen in Hi.
    destruct (Hrows i Hi) as (q & Hq & Hv). exists q. split; [exact Hq |].
    rewrite Hv. unfold Pandas.row, total_value. simpl. ring.
  - destruct (add_total_rows _ _ _ aT Ha) as (sel & Hsel & Hlen & Hrows);
      [ simpl; intuition discriminate | exact HaT | ].
    apply select_Ok_columns in Hsel.
    unfold Pandas.select_columns, animal_loss_columns in Hsel. cbn [mapM] in Hsel.
    apply rbind_Ok in Hsel as (x3 & H3 & Hsel). apply rbind_Ok in H3 as (l3 & Hl3 & H3).
    apply rbind_Ok in Hsel as (r3 & H4 & Hsel). apply rbind_Ok in H4 as (x4 & H4 & Hr3).
    apply rbind_Ok in H4 as (l4 & Hl4 & H4).
    apply rbind_Ok in Hr3 as (r4 & H5 & Hr3). apply rbind_Ok in H5 as (x5 & H5 & Hr4).
    apply rbind_Ok in H5 as (l5 & Hl5 & H5).
    apply rbind_Ok in Hr4 as (r5 & H6 & Hr4). apply rbind_Ok in H6 as (x6 & H6 & Hr5).
    apply rbind_Ok in H6 as (l6 & Hl6 & H6).
    apply rbind_Ok in Hr5 as (r6 & H7 & Hr5). apply rbind_Ok in H7 as (x7 & H7 & Hr6).
    apply rbind_Ok in H7 as (l7 & Hl7 & H7).
    inv_ok. subst.
    exists l3, l4, l5, l6, l7, aT. do 6 (split; [assumption |]).
    cbn [Pandas.nrows] in Hlen, Hrows. split; [exact Hlen |].
    intros i Hi. rewrite Hlen in Hi.
    destruct (Hrows i Hi) as (q & Hq & Hv). exists q. split; [exact Hq |].
    rewrite Hv. unfold Pandas.row, total_value. simpl. ring.
Qed.

(** The scenario of the specification: the Accomack row with losses of
    1 000 000 and 500 000 has a crop total of 1 500 000. *)
Lemma total_loss_accomack :
  exists d t q,
    fst (load_data "2017" Sample.w) = Ok d /\
    Pandas.getitem (crop_processing_nitrogen_df d) "total_nitrogen_loss" = Ok t /\
    nth_error t 0 = Some (Num q) /\
    (q == 1500000 # 1)%Q.
Proof.
  destruct (fst (load_data "2017" Sample.w)) as [d | e] eqn:E;
    [| vm_compute in E; discriminate E].
  destruct (total_loss_is_sum_of_stage_losses "2017" Sample.w d E)
    as ((l1 & l2 & t & H1 & H2 & Ht & Hlen & Hrows) & _).
  vm_compute in E. injection E as <-.
  vm_compute in H1. injection H1 as <-.
  vm_compute in H2. injection H2 as <-.
  destruct (Hrows 0) as (q & Hq & Hv); [rewrite Hlen; simpl; lia |].
  eexists _, t, q. split; [reflexivity |]. split; [exact Ht |].
  split; [exact Hq |]. rewrite Hv. reflexivity.
Defined.

(** ** Grouping *)

Lemma key_eqb_eq (a b : Pandas.key) : Pandas.key_eqb a b = true <-> a = b.
Proof.
  destruct a as [[pn pd] | s], b as [[qn qd] | t]; simpl;
    try (split; [discriminate | congruence]).
  - rewrite andb_true_iff, Z.eqb_eq, Pos.eqb_eq. split.
    + intros [-> ->]. reflexivity.
    + intros H. injection H as -> ->. split; reflexivity.
  - rewrite String.eqb_eq. split; congruence.
Qed.

Lemma key_eqb_refl (k : Pandas.key) : Pandas.key_eqb k k = true.
Proof. now apply key_eqb_eq. Qed.

Lemma key_eqb_neq (a b : Pandas.key) : a <> b -> Pandas.key_eqb a b = false.
Proof.
  intros H. destruct (Pandas.key_eqb a b) eqn:E; [| reflexivity].
  apply key_eqb_eq in E. contradiction.
Qed.

Section Groups.
Context {A : Type}.
Implicit Types (gs : list (Pandas.key * list A)) (k : Pandas.key) (v : A).

Lemma group_of_add_same k v gs :
  group_of k (Pandas.add_to_group k v gs) = group_of k gs ++ [v].
Proof.
  unfold group_of. induction gs as [| [k' vs] gs IH]; simpl.
  - now rewrite key_eqb_refl.
  - destruct (Pandas.key_eqb k k') eqn:E; simpl; rewrite E; [reflexivity | exact IH].
Qed.

Lemma group_of_add_other k k' v gs :
  k <> k' -> group_of k (Pandas.add_to_group k' v gs) = group_of k gs.
Proof.
  intros Hne. unfold group_of. induction gs as [| [k0 vs] gs IH]; simpl.
  - now rewrite key_eqb_neq.
  - destruct (Pandas.key_eqb k' k0) eqn:E; simpl.
    + apply key_eqb_eq in E. subst k0. now rewrite key_eqb_neq.
    + destruct (Pandas.key_eqb k k0); [reflexivity | exact IH].
Qed.

Lemma group_of_In k gs :
  group_of k gs <> [] -> In (k, group_of k gs) gs.
Proof.
  unfold group_of. intros H.
  destruct (find (fun g => Pandas.key_eqb k (fst g)) gs) as [[k' vs] |] eqn:E;
    [| contradiction].
  apply find_some in E as [Hin Hk]. simpl in Hk. apply key_eqb_eq in Hk.
  now subst.
Qed.

Lemma add_to_group_keys k v gs :
  map fst (Pandas.add_to_group k v gs)
  = if existsb (Pandas.key_eqb k) (map fst gs) then map fst gs
    else map fst gs ++ [k].
Proof.
  induction gs as [| [k' vs] gs IH]; simpl; [reflexivity |].
  destruct (Pandas.key_eqb k k'); simpl; [reflexivity |].
  rewrite IH. now destruct (existsb (Pandas.key_eqb k) (map fst gs)).
Qed.

Lemma add_to_group_NoDup k v gs :
  NoDup (map fst gs) -> NoDup (map fst (Pandas.add_to_group k v gs)).
Proof.
  intros H. rewrite add_to_group_keys.
  destruct (existsb (Pandas.key_eqb k) (map fst gs)) eqn:E; [exact H |].
  apply NoDup_app; [exact H | repeat constructor; intros [] |].
  intros x Hx [Hk | []]. subst x.
  assert (existsb (Pandas.key_eqb k) (map fst gs) = true); [| congruence].
  apply existsb_exists. exists k. split; [exact Hx | apply key_eqb_refl].
Qed.

Lemma insert_group_perm (g : Pandas.key * A) (l : list (Pandas.key * A)) :
  Permutation (Pandas.insert_group g l) (g :: l).
Proof.
  induction l as [| g' l IH]; simpl; [reflexivity |].
  destruct (Pandas.key_leb (fst g) (fst g')); [reflexivity |].
  rewrite IH. apply perm_swap.
Qed.

Lemma sort_groups_perm (l : list (Pandas.key * A)) :
  Permutation (Pandas.sort_groups l) l.
Proof.
  induction l as [| g l IH]; simpl; [reflexivity |].
  rewrite insert_group_perm. now apply perm_skip.
Qed.

End Groups.

Lemma group_of_fold (keys : Series) (k : Pandas.key) (l : list nat)
      (gs : list (Pandas.key * list nat)) :
  group_of k (fold_left (Pandas.group_step keys) l gs)
  = group_of k gs ++ filter (has_key keys k) l.
Proof.
  revert gs. induction l as [| i l IH]; intros gs; simpl.
  - now rewrite app_nil_r.
  - rewrite IH. unfold Pandas.group_step, has_key.
    destruct (Pandas.key_of_cell (nth i keys NaN)) as [k' |]; [| reflexivity].
    destruct (Pandas.key_eqb k k') eqn:E.
    + apply key_eqb_eq in E. subst k'.
      rewrite group_of_add_same, <- app_assoc. reflexivity.
    + rewrite group_of_add_other; [reflexivity |].
      intros ->. now rewrite key_eqb_refl in E.
Qed.

Lemma group_rows_NoDup (keys : Series) :
  NoDup (map fst (Pandas.group_rows keys)).
Proof.
  unfold Pandas.group_rows.
  assert (H : forall l gs, NoDup (map fst gs) ->
                NoDup (map fst (fold_left (Pandas.group_step keys) l gs))).
  { induction l as [| i l IH]; intros gs Hgs; simpl; [exact Hgs |].
    apply IH. unfold Pandas.group_step.
    destruct (Pandas.key_of_cell (nth i keys NaN)); [| exact Hgs].
    now apply add_to_group_NoDup. }
  apply H. constructor.
Qed.

(** The groups of [groupby]: one per key that has rows, holding the rows
    of that key in row order. *)
Lemma groupby_rows (keys : Series) (k : Pandas.key) :
  rows_with keys k <> [] -> In (k, rows_with keys k) (Pandas.groupby keys).
Proof.
  intros H. unfold Pandas.groupby.
  apply (Permutation_in _ (Permutation_sym (sort_groups_perm _))).
  assert (E : group_of k (Pandas.group_rows keys) = rows_with keys k).
  { unfold Pandas.group_rows. now rewrite group_of_fold. }
  rewrite <- E. apply group_of_In. now rewrite E.
Qed.

Lemma groupby_NoDup (keys : Series) : NoDup (map fst (Pandas.groupby keys)).
Proof.
  unfold Pandas.groupby.
  apply (Permutation_NoDup (l := map fst (Pandas.group_rows keys))).
  - apply Permutation_map, Permutation_sym, sort_groups_perm.
  - apply group_rows_NoDup.
Qed.

Lemma mapM_pure {A B} (f : A -> result B) (g : A -> B) (l : list A) :
  (forall a, f a = Ok (g a)) -> mapM f l = Ok (map g l).
Proof.
  intros H. induction l as [| a l IH]; simpl; [reflexivity |].
  now rewrite H, IH.
Qed.

(** ** The county totals *)

Lemma merged_totals (F C T : Series) (total : DataFrame) :
  Pandas.groupby_agg
    [("FIPS", F); ("county", C); ("total_nitrogen_loss", T)]
    "FIPS" [("total_nitrogen_loss", Pandas.AggSum); ("county", Pandas.AggFirst)]
  = Ok total ->
  exists sums,
    mapM (fun g => Pandas.aggregate Pandas.AggSum (Pandas.take T (snd g)))
         (Pandas.groupby F) = Ok sums /\
    total =
      [ ("FIPS", map (fun g => Pandas.cell_of_key (fst g)) (Pandas.groupby F));
        ("total_nitrogen_loss", sums);
        ("county",
          map (fun g => Pandas.first_valid (Pandas.take C (snd g))) (Pandas.groupby F)) ].
Proof.
  unfold Pandas.groupby_agg.
  change (Pandas.getitem _ "FIPS") with (Ok (A := Series) F).
  cbn [rbind mapM fst snd].
  change (Pandas.getitem _ "total_nitrogen_loss") with (Ok (A := Series) T).
  change (Pandas.getitem _ "county") with (Ok (A := Series) C).
  cbn [rbind].
  rewrite (mapM_pure (fun g => Pandas.aggregate Pandas.AggFirst (Pandas.take C (snd g)))
                     (fun g => Pandas.first_valid (Pandas.take C (snd g))))
    by reflexivity.
  destruct (mapM _ (Pandas.groupby F)) as [sums |]; [| discriminate].
  cbn [rbind]. intros H. injection H as <-.
  exists sums. split; reflexivity.
Qed.

(** C1: in the county table [load_data] returns, two rows of the
    concatenated stage totals (crop rows first, then animal rows) that share
    a FIPS, and are the only rows with it, are merged into one row: its
    total is the sum [a + b] of their totals and its county is the first
    county name of the two, in concatenation order, that is not missing. *)
Theorem county_totals_merge
        (year : string) (w : world) (d : loaded)
        (cF cC cT aF aC aT : Series) (k : Pandas.key) (i j : nat) (a b : Q) :
  fst (load_data year w) = Ok d ->
  Pandas.getitem (crop_processing_nitrogen_df d) "FIPS" = Ok cF ->
  Pandas.getitem (crop_processing_nitrogen_df d) "county" = Ok cC ->
  Pandas.getitem (crop_processing_nitrogen_df d) "total_nitrogen_loss" = Ok cT ->
  Pandas.getitem (animal_stage_nitrogen_df d) "FIPS" = Ok aF ->
  Pandas.getitem (animal_stage_nitrogen_df d) "county" = Ok aC ->
  Pandas.getitem (animal_stage_nitrogen_df d) "total_nitrogen_loss" = Ok aT ->
  rows_with (cF ++ aF) k = [i; j] ->
  nth i (cT ++ aT) NaN = Num a ->
  nth j (cT ++ aT) NaN = Num b ->
  exists p t county,
    p < Pandas.nrows (total_nitrogen_df d) /\
    Pandas.row (total_nitrogen_df d) p = [Pandas.cell_of_key k; Num t; county] /\
    (t == a + b)%Q /\
    (Pandas.isna (nth i (cC ++ aC) NaN) = false -> county = nth i (cC ++ aC) NaN) /\
    (Pandas.isna (nth i (cC ++ aC) NaN) = true ->
     Pandas.isna (nth j (cC ++ aC) NaN) = false -> county = nth j (cC ++ aC) NaN) /\
    (forall p', p' < Pandas.nrows (total_nitrogen_df d) ->
                nth 0 (Pandas.row (total_nitrogen_df d) p') NaN = Pandas.cell_of_key k ->
                p' = p).
Proof.
  intros Hload HcF HcC HcT HaF HaC HaT Hrows Ha Hb.
  apply load_data_inv in Hload
      as (path & n & ar & inv & c & an & _ & _ & _ & _ & _ & _ & H).
  apply derive_inv in H
      as (crop1 & animal1 & crop2 & animal2 & total & _ & _ & _ & _ & Ht & ->).
  cbn [crop_processing_nitrogen_df animal_stage_nitrogen_df total_nitrogen_df] in *.
  apply total_nitrogen_columns in Ht
      as (cF' & cC' & cT' & aF' & aC' & aT' & E1 & E2 & E3 & E4 & E5 & E6 & Ht).
  rewrite HcF in E1. rewrite HcC in E2. rewrite HcT in E3.
  rewrite HaF in E4. rewrite HaC in E5. rewrite HaT in E6.
  injection E1 as <-. injection E2 as <-. injection E3 as <-.
  injection E4 as <-. injection E5 as <-. injection E6 as <-.
  apply merged_totals in Ht as (sums & Hsums & ->).
  set (F := cF ++ aF) in *. set (C := cC ++ aC) in *. set (T := cT ++ aT) in *.
  assert (Hin : In (k, [i; j]) (Pandas.groupby F)).
  { rewrite <- Hrows. apply groupby_rows. rewrite Hrows. discriminate. }
  apply In_nth_error in Hin as (p & Hp).
  destruct (mapM_nth_error _ _ _ Hsums p _ Hp) as (s & Hs & Hagg).
  cbn [Pandas.aggregate snd Pandas.take map] in Hagg.
  apply rbind_Ok in Hagg as (t & Hsum & Hagg). injection Hagg as <-.
  apply series_sum_value in Hsum. rewrite Ha, Hb in Hsum.
  exists p, t, (Pandas.first_valid [nth i C NaN; nth j C NaN]).
  assert (Hlt : p < length (Pandas.groupby F)).
  { apply nth_error_Some. rewrite Hp. discriminate. }
  split; [cbn [Pandas.nrows]; now rewrite length_map |].
  split.
  - unfold Pandas.row, Pandas.values. cbn [map snd].
    rewrite (nth_error_nth _ _ NaN
               (map_nth_error (fun g => Pandas.cell_of_key (fst g)) _ _ Hp)).
    rewrite (nth_error_nth _ _ NaN Hs).
    rewrite (nth_error_nth _ _ NaN
               (map_nth_error
                  (fun g => Pandas.first_valid (Pandas.take C (snd g))) _ _ Hp)).
    reflexivity.
  - split; [rewrite Hsum; unfold total_value; simpl; ring |].
    split; [| split].
    + intros H1. simpl. now rewrite H1.
    + intros H1 H2. simpl. now rewrite H1, H2.
    + cbn [Pandas.nrows]. rewrite length_map. intros p' Hp' Hk.
      destruct (nth_error (Pandas.groupby F) p') as [[k' idx] |] eqn:Hp'';
        [| apply nth_error_None in Hp''; lia].
      unfold Pandas.row, Pandas.values in Hk. cbn [map snd] in Hk.
      assert (Hcell : nth p' (map (fun g => Pandas.cell_of_key (fst g))
                                  (Pandas.groupby F)) NaN = Pandas.cell_of_key k').
      { apply nth_error_nth.
        apply (map_nth_error (fun g => Pandas.cell_of_key (fst g)) _ _ Hp''). }
      cbn [nth] in Hk. rewrite Hcell in Hk.
      assert (Hk' : k' = k) by (destruct k, k'; simpl in Hk; congruence).
      subst k'.
      apply (proj1 (NoDup_nth_error (map fst (Pandas.groupby F)))
               (groupby_NoDup F)); [now rewrite length_map |].
      rewrite (map_nth_error fst _ _ Hp), (map_nth_error fst _ _ Hp'').
      reflexivity.
Qed.

(** Accomack (FIPS 51001) has one crop row and one animal row; the animal
    row has no county name. *)
Lemma county_totals_accomack :
  exists d p t,
    fst (load_data "2017" Sample.w) = Ok d /\
    Pandas.row (total_nitrogen_df d) p = [Sample.n 51001; Num t; Str "Accomack"] /\
    (t == 1520000 # 1)%Q.
Proof.
  let v := eval vm_compute in (fst (load_data "2017" Sample.w)) in
  match v with
  | Ok ?x => pose (d := x)
  end.
  assert (E : fst (load_data "2017" Sample.w) = Ok d) by (vm_compute; reflexivity).
  edestruct county_totals_merge
    with (year := "2017") (w := Sample.w) (d := d) (k := Pandas.KNum (51001 # 1))
         (i := 0) (j := 3) (a := (1500000 # 1)%Q) (b := (20000 # 1)%Q)
    as (p & t & county & _ & Hrow & Ht & Hc & _).
  1: exact E.
  1-9: vm_compute; reflexivity.
  exists d, p, t. split; [exact E |]. split; [| exact Ht].
  rewrite Hrow, Hc; reflexivity.
Defined.

(** ** Rounding *)

Lemma rint_compat (p q : Q) : (p == q)%Q -> rint p = rint q.
Proof.
  intros H. unfold rint. rewrite (Qfloor_comp _ _ H).
  assert (E : ((p - inject_Z (Qfloor q) ?= 1 # 2) = (q - inject_Z (Qfloor q) ?= 1 # 2))%Q).
  { apply Qcompare_comp; [now rewrite H | reflexivity]. }
  now rewrite E.
Qed.

Lemma rn_compat (p q : Q) : (p == q)%Q -> rn p = rn q.
Proof.
  intros H. unfold rn. now rewrite (Qred_complete _ _ H).
Qed.

Lemma round2_compat (p q : Q) : (p == q)%Q -> round2 p = round2 q.
Proof.
  intros H. unfold round2. now rewrite (rn_compat _ _ H).
Qed.



(** ** The table of a stage *)








(** ** Reading the files *)



Lemma update_dashboard_result (year : string) (w : world) :
  fst (update_dashboard year w) = rbind (fst (load_data year w)) assemble.
Proof.
  unfold update_dashboard, mbind, lift.
  destruct (load_data year w) as [[d | e] w']; reflexivity.
Qed.

Lemma wrapper_raises (year : string) (w : world) (e : exn) :
  fst (update_dashboard year w) = Raise e ->
  fst (update_dashboard_wrapper year w) = Raise e.
Proof.
  unfold update_dashboard_wrapper, mbind, lift.
  destruct (update_dashboard year w) as [[out | e'] w']; simpl; [discriminate |].
  intros H. injection H as ->. reflexivity.
Qed.

Local Ltac raised :=
  eexists _, _; split; [| split; [(left + right); reflexivity | reflexivity]];
  simpl; tauto.

(** The first source table that is not readable stops [load_data]. *)
Lemma unreadable_source_raises (year path name : string) (w : world) :
  dict_get (data_paths w) year = Ok path ->
  In name source_files ->
  (forall df, files w (path_join path name) <> Parsed df) ->
  exists e name',
    In name' source_files /\
    (e = FileNotFoundError (path_join path name') \/
     e = ParserError (path_join path name')) /\
    fst (load_data year w) = Raise e.
Proof.
  intros Hpath Hname Hbad.
  unfold load_data, mbind, get_data_path, read_csv, lift. rewrite Hpath.
  unfold source_files in *.
  destruct (files w (path_join path "nitrogen_losses_summary.csv")) eqn:E1;
    [raised | raised |].
  destruct (files w (path_join path "harvested_area_by_commodity.csv")) eqn:E2;
    [raised | raised |].
  destruct (files w (path_join path "inventory_by_commodity.csv")) eqn:E3;
    [raised | raised |].
  destruct (files w (path_join path "crop_processing_nitrogen.csv")) eqn:E4;
    [raised | raised |].
  destruct (files w (path_join path "animal_stage_nitrogen.csv")) eqn:E5;
    [raised | raised |].
  exfalso.
  destruct Hname as [<- | [<- | [<- | [<- | [<- | []]]]]];
    eapply Hbad; eassumption.
Qed.

(** C5: if one of the five source tables of the requested scenario is
    missing or cannot be parsed, [load_data] raises; the exception (a
    [FileNotFoundError] or [ParserError] naming a source file) reaches the
    caller of [update_dashboard] and of the callback, and no artifact is
    returned. *)
Theorem missing_table_raises (year path name : string) (w : world) :
  dict_get (data_paths w) year = Ok path ->
  In name source_files ->
  (forall df, files w (path_join path name) <> Parsed df) ->
  exists e name',
    In name' source_files /\
    (e = FileNotFoundError (path_join path name') \/
     e = ParserError (path_join path name')) /\
    fst (load_data year w) = Raise e /\
    fst (update_dashboard year w) = Raise e /\
    fst (update_dashboard_wrapper year w) = Raise e.
Proof.
  intros Hpath Hname Hbad.
  destruct (unreadable_source_raises year path name w Hpath Hname Hbad)
    as (e & name' & Hin & He & Hload).
  exists e, name'. split; [exact Hin |]. split; [exact He |].
  split; [exact Hload |].
  assert (Hup : fst (update_dashboard year w) = Raise e).
  { rewrite update_dashboard_result, Hload. reflexivity. }
  split; [exact Hup | now apply wrapper_raises].
Qed.

(** The crop table of 2030 is not there. *)
Lemma missing_crop_table_2030 :
  exists e,
    fst (update_dashboard_wrapper "2030" Sample.w) = Raise e /\
    fst (load_data "2030" Sample.w) = Raise e.
Proof.
  destruct (missing_table_raises "2030" "/srv/dashboard/data/2030"
              "crop_processing_nitrogen.csv" Sample.w)
    as (e & name' & _ & _ & Hload & _ & Hwrap).
  - reflexivity.
  - simpl. tauto.
  - intros df. vm_compute. discriminate.
  - exists e. split; assumption.
Defined.


(** ** The summary table *)

(** [derive] hands the summary table through and looks at nothing in it. *)
Lemma derive_summary (n n' a i c an : DataFrame) :
  derive n a i c an
  = rbind (derive n' a i c an)
          (fun d => Ok {| nitrogen_df := n;
                          area_df := area_df d;
                          inventory_df := inventory_df d;
                          crop_processing_nitrogen_df := crop_processing_nitrogen_df d;
                          animal_stage_nitrogen_df := animal_stage_nitrogen_df d;
                          total_nitrogen_df := total_nitrogen_df d |}).
Proof.
  unfold derive.
  destruct (rename_columns c) as [c1 |]; [| reflexivity]. cbn [rbind].
  destruct (rename_columns an) as [an1 |]; [| reflexivity]. cbn [rbind].
  destruct (add_total c1 crop_loss_columns) as [c2 |]; [| reflexivity]. cbn [rbind].
  destruct (add_total an1 animal_loss_columns) as [an2 |]; [| reflexivity]. cbn [rbind].
  destruct (total_nitrogen c2 an2) as [t |]; reflexivity.
Qed.

(** [assemble] reads every table of the load but the summary. *)
Lemma assemble_summary (d : loaded) (n : DataFrame) :
  assemble {| nitrogen_df := n;
              area_df := area_df d;
              inventory_df := inventory_df d;
              crop_processing_nitrogen_df := crop_processing_nitrogen_df d;
              animal_stage_nitrogen_df := animal_stage_nitrogen_df d;
              total_nitrogen_df := total_nitrogen_df d |}
  = assemble d.
Proof. reflexivity. Qed.

(** C10: the artifacts do not depend on what
    [nitrogen_losses_summary.csv] holds.  Two worlds in which that file can
    be read, and whose other four source tables agree, give the same result
    of [update_dashboard]; a world in which the file is missing or garbled
    gives an exception. *)
Theorem summary_table_unused (year path : string) (w w' : world) (n n' : DataFrame) :
  dict_get (data_paths w) year = Ok path ->
  dict_get (data_paths w') year = Ok path ->
  files w (path_join path "nitrogen_losses_summary.csv") = Parsed n ->
  files w' (path_join path "nitrogen_losses_summary.csv") = Parsed n' ->
  (forall name, In name source_files ->
                name <> "nitrogen_losses_summary.csv" ->
                files w (path_join path name) = files w' (path_join path name)) ->
  fst (update_dashboard year w) = fst (update_dashboard year w') /\
  (forall w0,
      dict_get (data_paths w0) year = Ok path ->
      (forall df, files w0 (path_join path "nitrogen_losses_summary.csv") <> Parsed df) ->
      exists e, fst (load_data year w0) = Raise e /\
                fst (update_dashboard year w0) = Raise e).
Proof.
  intros Hp Hp' Hn Hn' Hsame. split.
  - rewrite !update_dashboard_result.
    unfold load_data, mbind, get_data_path, read_csv, lift.
    rewrite Hp, Hp', Hn, Hn'.
    rewrite <- (Hsame "harvested_area_by_commodity.csv"),
            <- (Hsame "inventory_by_commodity.csv"),
            <- (Hsame "crop_processing_nitrogen.csv"),
            <- (Hsame "animal_stage_nitrogen.csv");
      try (unfold source_files; simpl; tauto); try discriminate.
    destruct (files w (path_join path "harvested_area_by_commodity.csv")) as [| | a];
      try reflexivity.
    destruct (files w (path_join path "inventory_by_commodity.csv")) as [| | i];
      try reflexivity.
    destruct (files w (path_join path "crop_processing_nitrogen.csv")) as [| | c];
      try reflexivity.
    destruct (files w (path_join path "animal_stage_nitrogen.csv")) as [| | an];
      try reflexivity.
    cbn [fst]. rewrite (derive_summary n n').
    destruct (derive n' a i c an) as [d |]; [| reflexivity].
    cbn [rbind]. apply assemble_summary.
  - intros w0 Hp0 Hbad.
    destruct (unreadable_source_raises year path "nitrogen_losses_summary.csv" w0 Hp0)
      as (e & _ & _ & _ & Hload);
      [unfold source_files; simpl; tauto | exact Hbad |].
    exists e. split; [exact Hload |].
    rewrite update_dashboard_result, Hload. reflexivity.
Qed.

(** Two versions of the summary table, one result. *)
Lemma summary_table_revised :
  fst (update_dashboard "2017" Sample.w) = fst (update_dashboard "2017" Sample.w').
Proof.
  apply (summary_table_unused "2017" Sample.dir Sample.w Sample.w'
           Sample.summary Sample.summary').
  - reflexivity.
  - reflexivity.
  - reflexivity.
  - reflexivity.
  - intros name Hin Hne.
    destruct Hin as [<- | [<- | [<- | [<- | [<- | []]]]]];
      try reflexivity; contradiction.
Defined.

(** ** The log transform *)

Lemma Q2R_zero : Q2R 0 = 0%R.
Proof. unfold Q2R. simpl. lra. Qed.

Lemma ln_1p_nonneg (x : R) : (0 <= x)%R -> (0 <= ln (1 + x))%R.
Proof.
  intros [Hpos | <-].
  - left. rewrite <- ln_1. apply ln_increasing; lra.
  - right. rewrite Rplus_0_r. symmetry. apply ln_1.
Qed.

(** Every log column is [np.log1p] of its source column, cell by cell. *)
Lemma np_log1p_cells (s s' : Series) :
  Pandas.np_log1p s = Ok s' ->
  forall i v, nth_error s i = Some (Num v) ->
              nth_error s' i = Some (Flt (log1p v)).
Proof.
  intros H i v Hi.
  destruct (mapM_nth_error _ _ _ H i _ Hi) as (c & Hc & E).
  simpl in E. injection E as <-. exact Hc.
Qed.

(** [np.log1p] of a non-negative number is a finite number [r >= 0],
    never [nan] or [-inf], and it is zero at zero. *)
Lemma log1p_of_nonneg (v : Q) :
  (0 <= v)%Q ->
  exists r : R,
    log1p v = XFin r /\ (0 <= r)%R /\ ((v == 0)%Q -> r = 0%R).
Proof.
  intros Hv.
  assert (Hgt : (v ?= -1)%Q = Gt).
  { apply Qgt_alt. apply Qlt_le_trans with (y := 0%Q); [reflexivity | exact Hv]. }
  exists (ln (1 + Q2R v)).
  unfold log1p. rewrite Hgt.
  split; [reflexivity |]. split.
  - apply ln_1p_nonneg. rewrite <- Q2R_zero. now apply Qle_Rle.
  - intros Hz. rewrite (Qeq_eqR _ _ Hz), Q2R_zero, Rplus_0_r. apply ln_1.
Qed.

(** ** Rounding for display *)










(** The bound needs its slack: a raw sum of 1 145 000 is shown as the
    binary64 number next to 1.14, which lies below 1.14. *)
Lemma millions_round_trip_slack :
  millions (1145000 # 1) = rn (114 # 100) /\
  (rn (114 # 100) < 114 # 100)%Q /\
  ~ (Qabs (millions (1145000 # 1) * million - (1145000 # 1)) <= 5000 # 1)%Q.
Proof.
  split; [vm_compute; reflexivity |]. split; [vm_compute; reflexivity |].
  intros H. apply Qle_bool_iff in H. vm_compute in H. discriminate H.
Qed.

(** ** The table of the loss categories *)






Lemma qsum_app (l l' : list Q) : (qsum (l ++ l') == qsum l + qsum l')%Q.
Proof.
  induction l as [| x l IH]; simpl; [ring | rewrite IH; ring].
Qed.

(** ** The log columns *)

Lemma same_data_refl (df : DataFrame) : same_data df df.
Proof. intros c _. reflexivity. Qed.

Lemma same_data_trans (df1 df2 df3 : DataFrame) :
  same_data df1 df2 -> same_data df2 df3 -> same_data df1 df3.
Proof. intros H12 H23 c Hc. now rewrite H23, H12. Qed.

Lemma px_column_Ok (df : DataFrame) (name : string) (s : Series) :
  px_column df name = Ok s -> Pandas.getitem df name = Ok s.
Proof.
  unfold px_column. destruct (Pandas.getitem df name); [tauto | discriminate].
Qed.

Lemma add_log_inv (df df' : DataFrame) (col : string) :
  add_log df col = Ok df' ->
  exists raw lg,
    Pandas.getitem df col = Ok raw /\
    Pandas.np_log1p raw = Ok lg /\
    df' = Pandas.setitem df ("log_" ++ col)%string lg.
Proof.
  unfold add_log. intros H.
  apply rbind_Ok in H as (raw & Hraw & H). apply rbind_Ok in H as (lg & Hlg & H).
  injection H as <-. now exists raw, lg.
Qed.

Lemma setitem_log_same_data (df : DataFrame) (col : string) (lg : Series) :
  same_data df (Pandas.setitem df ("log_" ++ col)%string lg).
Proof.
  intros c Hc. apply getitem_setitem_other. intros <-.
  unfold PyStr.startswith in Hc. now rewrite prefix_append in Hc.
Qed.

(** One map: the log column is written to the frame and read back by the
    figure, together with columns that the write leaves alone. *)
Lemma log_map_step (df0 df df1 : DataFrame) (col label title : string) (fig : figure) :
  same_data df0 df ->
  PyStr.startswith col "log_" = false ->
  add_log df col = Ok df1 ->
  px_choropleth df1 ("log_" ++ col)%string col title = Ok fig ->
  is_log_map df0 col label title (Tab label [Graph fig]) /\ same_data df0 df1.
Proof.
  intros Hsame Hcol Hadd Hfig.
  apply add_log_inv in Hadd as (raw & lg & Hraw & Hlg & ->).
  pose proof (setitem_log_same_data df col lg) as Hset.
  unfold px_choropleth in Hfig.
  apply rbind_Ok in Hfig as (loc & Hloc & Hfig).
  apply rbind_Ok in Hfig as (colour & Hcolour & Hfig).
  apply rbind_Ok in Hfig as (name & Hname & Hfig).
  apply rbind_Ok in Hfig as (hov & Hhov & Hfig). injection Hfig as <-.
  apply px_column_Ok in Hloc, Hcolour, Hname, Hhov.
  apply getitem_setitem_same in Hcolour. subst colour.
  rewrite Hset in Hloc, Hname, Hhov by (reflexivity || exact Hcol).
  rewrite Hraw in Hhov. injection Hhov as <-.
  split; [| now apply same_data_trans with (df2 := df)].
  rewrite Hsame in Hraw, Hloc, Hname by (reflexivity || exact Hcol).
  exists raw, lg, loc, name.
  repeat split; assumption || reflexivity.
Qed.

(** The loop over the loss categories, started anywhere. *)
Lemma loss_tabs_from (fr0 : frames) (l : list (nat * (string * string))) :
  Forall (fun e => PyStr.startswith (fst (snd e)) "log_" = false) l ->
  forall fr1 tabs1 fr2 tabs2,
    same_data (crop_df fr0) (crop_df fr1) ->
    same_data (animal_df fr0) (animal_df fr1) ->
    foldM loss_tab l (fr1, tabs1) = Ok (fr2, tabs2) ->
    exists new,
      tabs2 = tabs1 ++ new /\
      Forall2 (fun e tab =>
                 is_log_map (if fst e <? 2 then crop_df fr0 else animal_df fr0)
                            (fst (snd e)) (snd (snd e))
                            ("<b>" ++ snd (snd e) ++ "</b>")%string tab)
              l new /\
      same_data (crop_df fr0) (crop_df fr2) /\
      same_data (animal_df fr0) (animal_df fr2).
Proof.
  induction 1 as [| e l He Hl IH]; intros fr1 tabs1 fr2 tabs2 Hc Ha H.
  - simpl in H. injection H as <- <-. exists []. rewrite app_nil_r.
    repeat split; try assumption. constructor.
  - cbn [foldM] in H. apply rbind_Ok in H as ([fr1' tabs1'] & Hstep & H).
    unfold loss_tab in Hstep.
    apply rbind_Ok in Hstep as (df1 & Hadd & Hstep).
    apply rbind_Ok in Hstep as (fig & Hfig & Hstep).
    injection Hstep as <- <-.
    destruct (fst e <? 2) eqn:Ei.
    + destruct (log_map_step (crop_df fr0) _ _ _ (snd (snd e)) _ _ Hc He Hadd Hfig)
        as [Hmap Hc'].
      destruct (IH {| crop_df := df1; animal_df := animal_df fr1 |} _ _ _ Hc' Ha H)
        as (new & -> & Hnew & Hc2 & Ha2).
      exists (Tab (snd (snd e)) [Graph fig] :: new). rewrite <- app_assoc.
      repeat split; try assumption. constructor; [| exact Hnew].
      now rewrite Ei.
    + destruct (log_map_step (animal_df fr0) _ _ _ (snd (snd e)) _ _ Ha He Hadd Hfig)
        as [Hmap Ha'].
      destruct (IH {| crop_df := crop_df fr1; animal_df := df1 |} _ _ _ Hc Ha' H)
        as (new & -> & Hnew & Hc2 & Ha2).
      exists (Tab (snd (snd e)) [Graph fig] :: new). rewrite <- app_assoc.
      repeat split; try assumption. constructor; [| exact Hnew].
      now rewrite Ei.
Qed.

Lemma nitrogen_loss_tabs_maps (fr fr' : frames) (tabs : list component) :
  nitrogen_loss_tabs fr = Ok (fr', tabs) ->
  Forall2 (fun e tab =>
             is_log_map (if fst e <? 2 then crop_df fr else animal_df fr)
                        (fst (snd e)) (snd (snd e))
                        ("<b>" ++ snd (snd e) ++ "</b>")%string tab)
          (enumerate nitrogen_loss_labels) tabs /\
  same_data (crop_df fr) (crop_df fr') /\
  same_data (animal_df fr) (animal_df fr').
Proof.
  intros H. unfold nitrogen_loss_tabs in H.
  destruct (loss_tabs_from fr (enumerate nitrogen_loss_labels)) with
      (fr1 := fr) (tabs1 := @nil component) (fr2 := fr') (tabs2 := tabs)
    as (new & -> & Hnew & Hc & Ha);
    try apply same_data_refl; try exact H.
  - repeat constructor.
  - repeat split; assumption.
Qed.

Lemma select_same_data (df df' : DataFrame) (cols : list string) :
  same_data df df' ->
  Forall (fun c => PyStr.startswith c "log_" = false) cols ->
  Pandas.select df' cols = Pandas.select df cols.
Proof.
  intros Hsame Hcols. apply select_ext.
  intros c Hc. apply Hsame.
  now apply (proj1 (Forall_forall _ _) Hcols).
Qed.

Lemma nitrogen_loss_table_same_data (fr fr' : frames) :
  same_data (crop_df fr) (crop_df fr') ->
  same_data (animal_df fr) (animal_df fr') ->
  nitrogen_loss_table fr' = nitrogen_loss_table fr.
Proof.
  intros Hc Ha. unfold nitrogen_loss_table, total_millions, rounded_sums.
  rewrite (select_same_data _ _ crop_loss_columns Hc) by (repeat constructor).
  rewrite (select_same_data _ _ animal_loss_columns Ha) by (repeat constructor).
  reflexivity.
Qed.

Lemma table_data_same_data (df df' : DataFrame) (cols : list string) :
  same_data df df' ->
  Forall (fun c => PyStr.startswith c "log_" = false) cols ->
  table_data df' cols = table_data df cols.
Proof.
  intros Hsame Hcols. unfold table_data, Pandas.groupby_agg.
  rewrite Hsame by reflexivity.
  destruct (Pandas.getitem df "commodity") as [keys |]; [| reflexivity].
  cbn [rbind].
  rewrite (mapM_ext_in
             (fun ca => let* s := Pandas.getitem df' (fst ca) in
                        let* vals := mapM (fun g => Pandas.aggregate (snd ca)
                                                      (Pandas.take s (snd g)))
                                          (Pandas.groupby keys) in
                        Ok (fst ca, vals))
             (fun ca => let* s := Pandas.getitem df (fst ca) in
                        let* vals := mapM (fun g => Pandas.aggregate (snd ca)
                                                      (Pandas.take s (snd g)))
                                          (Pandas.groupby keys) in
                        Ok (fst ca, vals))); [reflexivity |].
  intros ca Hca. apply in_map_iff in Hca as (c & <- & Hc). cbn [fst snd].
  rewrite Hsame; [reflexivity |].
  now apply (proj1 (Forall_forall _ _) Hcols).
Qed.

(** The maps of one stage. *)
Lemma stage_tabs_from (stage : string) (df0 : DataFrame) (cols : list string) :
  Forall (fun c => PyStr.startswith c "log_" = false) cols ->
  forall df1 tabs1 df2 tabs2,
    same_data df0 df1 ->
    foldM (stage_tab stage) cols (df1, tabs1) = Ok (df2, tabs2) ->
    exists new,
      tabs2 = tabs1 ++ new /\
      Forall2 (fun col tab =>
                 is_log_map df0 col (pretty_column col)
                            ("<b>" ++ pretty_column col ++ " - " ++ stage ++ "<b>")%string
                            tab)
              cols new /\
      same_data df0 df2.
Proof.
  induction 1 as [| col cols Hcol Hcols IH]; intros df1 tabs1 df2 tabs2 Hsame H.
  - simpl in H. injection H as <- <-. exists []. rewrite app_nil_r.
    repeat split; try assumption. constructor.
  - cbn [foldM] in H. apply rbind_Ok in H as ([df1' tabs1'] & Hstep & H).
    unfold stage_tab in Hstep.
    apply rbind_Ok in Hstep as (dfl & Hadd & Hstep).
    apply rbind_Ok in Hstep as (fig & Hfig & Hstep).
    injection Hstep as <- <-.
    destruct (log_map_step df0 _ _ _ (pretty_column col) _ _ Hsame Hcol Hadd Hfig)
      as [Hmap Hsame'].
    destruct (IH _ _ _ _ Hsame' H) as (new & -> & Hnew & Hsame2).
    exists (Tab (pretty_column col) [Graph fig] :: new). rewrite <- app_assoc.
    repeat split; try assumption. now constructor.
Qed.

(** The loop over the stages, started anywhere. *)
Lemma stage_sections_from (fr0 : frames) (l : list (nat * (string * list string))) :
  Forall (fun e => Forall (fun c => PyStr.startswith c "log_" = false)
                          (snd (snd e))) l ->
  forall fr1 secs1 fr2 secs2,
    same_data (crop_df fr0) (crop_df fr1) ->
    same_data (animal_df fr0) (animal_df fr1) ->
    foldM stage_section l (fr1, secs1) = Ok (fr2, secs2) ->
    exists new,
      secs2 = secs1 ++ new /\
      Forall2 (fun e s =>
                 is_stage_section_of
                   (if fst e =? 0 then crop_df fr0 else animal_df fr0)
                   (fst (snd e)) (snd (snd e)) s)
              l new.
Proof.
  induction 1 as [| e l He Hl IH]; intros fr1 secs1 fr2 secs2 Hc Ha H.
  - simpl in H. injection H as <- <-. exists []. rewrite app_nil_r.
    split; [reflexivity | constructor].
  - cbn [foldM] in H. apply rbind_Ok in H as ([fr1' secs1'] & Hstep & H).
    unfold stage_section in Hstep.
    apply rbind_Ok in Hstep as ([df2 tabs] & Htabs & Hstep).
    apply rbind_Ok in Hstep as (table & Htable & Hstep).
    injection Hstep as <- <-.
    destruct (fst e =? 0) eqn:Ei.
    + destruct (stage_tabs_from (fst (snd e)) (crop_df fr0) _ He _ _ _ _ Hc Htabs)
        as (new & -> & Hnew & Hc').
      rewrite (table_data_same_data _ _ _ Hc' He) in Htable.
      destruct (IH {| crop_df := df2; animal_df := animal_df fr1 |} _ _ _ Hc' Ha H)
        as (rest & -> & Hrest).
      eexists (_ :: rest). rewrite <- app_assoc. split; [reflexivity |].
      constructor; [| exact Hrest]. rewrite Ei.
      exists new, table. repeat split; assumption.
    + destruct (stage_tabs_from (fst (snd e)) (animal_df fr0) _ He _ _ _ _ Ha Htabs)
        as (new & -> & Hnew & Ha').
      rewrite (table_data_same_data _ _ _ Ha' He) in Htable.
      destruct (IH {| crop_df := crop_df fr1; animal_df := df2 |} _ _ _ Hc Ha' H)
        as (rest & -> & Hrest).
      eexists (_ :: rest). rewrite <- app_assoc. split; [reflexivity |].
      constructor; [| exact Hrest]. rewrite Ei.
      exists new, table. repeat split; assumption.
Qed.

(** The page of the sample. *)
Lemma sample_page_is_rendered :
  exists d maps table content slot production,
    fst (load_data "2017" Sample.w) = Ok d /\
    fst (update_dashboard "2017" Sample.w)
    = Ok (maps, table, content, slot, production).
Proof.
  destruct (fst (load_data "2017" Sample.w)) as [d | e] eqn:E;
    [| vm_compute in E; discriminate E].
  destruct (fst (update_dashboard "2017" Sample.w))
    as [[[[[maps table] content] slot] production] | e] eqn:U;
    [| lazy -[log1p] in U; discriminate U].
  exists d, maps, table, content, slot, production.
  split; reflexivity.
Defined.

(** What [assemble] puts into the first returned value. *)
Lemma assemble_maps (d : loaded) (maps table content : component)
      (slot : list component) (production : component) :
  assemble d = Ok (maps, table, content, slot, production) ->
  exists tabs total_tab,
    maps = Div [ H2 "In What Stage Is Nitrogen Lost in the Food and Animal Supply Chain?"
                    "nitrogen-loss";
                 Tabs (tabs ++ [total_tab]) ] /\
    Forall2 (fun e tab =>
               is_log_map (if fst e <? 2 then crop_processing_nitrogen_df d
                           else animal_stage_nitrogen_df d)
                          (fst (snd e)) (snd (snd e))
                          ("<b>" ++ snd (snd e) ++ "</b>")%string tab)
            (enumerate nitrogen_loss_labels) tabs /\
    is_log_map (total_nitrogen_df d) "total_nitrogen_loss" "Total Nitrogen Loss"
               "<b>Total Nitrogen Loss by County</b>" total_tab.
Proof.
  intros Hup. unfold assemble in Hup.
  apply rbind_Ok in Hup as ([fr1 tabs] & Htabs & Hup).
  apply rbind_Ok in Hup as (fig & Hfig & Hup).
  apply rbind_Ok in Hup as (lt & _ & Hup).
  apply rbind_Ok in Hup as ([fr2 secs] & _ & Hup).
  apply rbind_Ok in Hup as (inv & _ & Hup).
  injection Hup as <- _ _ _ _.
  apply nitrogen_loss_tabs_maps in Htabs as (Hmaps & _ & _).
  cbn [crop_df animal_df] in Hmaps.
  exists tabs, (Tab "Total Nitrogen Loss" [Graph fig]).
  split; [reflexivity |]. split; [exact Hmaps |].
  unfold total_loss_fig in Hfig.
  apply rbind_Ok in Hfig as (total1 & Hadd & Hfig).
  now apply (log_map_step (total_nitrogen_df d) (total_nitrogen_df d) total1
               "total_nitrogen_loss" "Total Nitrogen Loss" _ fig
               (same_data_refl _) eq_refl Hadd).
Qed.

(** What [assemble] puts into the third returned value. *)
Lemma assemble_content (d : loaded) (maps table content : component)
      (slot : list component) (production : component) :
  assemble d = Ok (maps, table, content, slot, production) ->
  exists s1 s2 s3,
    content = Div [ H2 "Where Does Nitrogen Loss Occur in the Chesapeake Bay?"
                       "trade-behavior"; s1; s2; s3 ] /\
    is_stage_section_of (crop_processing_nitrogen_df d) "Crop Stage"
      ["import_crop_processing_nitrogen"; "export_crop_processing_nitrogen";
       "within_county_crop_processing_nitrogen"] s1 /\
    is_stage_section_of (animal_stage_nitrogen_df d) "Live Animal Stage"
      ["import_animal_nitrogen"; "export_animal_nitrogen";
       "within_county_animal_nitrogen"] s2 /\
    is_stage_section_of (animal_stage_nitrogen_df d) "Animal Product Stage"
      ["import_meat_nitrogen"; "export_meat_nitrogen";
       "within_county_meat_nitrogen"] s3.
Proof.
  intros Hup. unfold assemble in Hup.
  apply rbind_Ok in Hup as ([fr1 tabs] & Htabs & Hup).
  apply rbind_Ok in Hup as (fig & _ & Hup).
  apply rbind_Ok in Hup as (lt & Hlt & Hup).
  apply rbind_Ok in Hup as ([fr2 secs] & Hsecs & Hup).
  apply rbind_Ok in Hup as (inv & _ & Hup).
  injection Hup as _ _ <- _ _.
  apply nitrogen_loss_tabs_maps in Htabs as (_ & Hc & Ha).
  cbn [crop_df animal_df] in Hc, Ha.
  unfold import_export_sections in Hsecs.
  destruct (stage_sections_from
              {| crop_df := crop_processing_nitrogen_df d;
                 animal_df := animal_stage_nitrogen_df d |}
              (enumerate stages)) with
      (fr1 := fr1) (secs1 := @nil component) (fr2 := fr2) (secs2 := secs)
    as (new & -> & Hnew); try assumption.
  { repeat constructor. }
  unfold enumerate, stages in Hnew. cbn [length seq combine] in Hnew.
  inversion Hnew as [| e1 s1 l1 r1 S1 Hnew1]; subst.
  inversion Hnew1 as [| e2 s2 l2 r2 S2 Hnew2]; subst.
  inversion Hnew2 as [| e3 s3 l3 r3 S3 Hnew3]; subst.
  inversion Hnew3; subst.
  exists s1, s2, s3. split; [reflexivity |].
  repeat split; assumption.
Qed.

Lemma log_map_figures (df : DataFrame) (col label title : string) (tab : component) :
  is_log_map df col label title tab -> Forall log_scaled (figures_of tab).
Proof.
  intros (raw & lg & loc & name & _ & Hlg & _ & _ & ->).
  cbn [figures_of flat_map app]. constructor; [| constructor].
  now exists title, loc, lg, name, col, raw.
Qed.

Lemma log_maps_figures {A} (P : A -> component -> Prop) (l : list A)
      (tabs : list component) :
  (forall a tab, P a tab -> Forall log_scaled (figures_of tab)) ->
  Forall2 P l tabs ->
  Forall log_scaled (flat_map figures_of tabs).
Proof.
  intros HP H. induction H as [| a tab l tabs Hab _ IH]; cbn [flat_map].
  - constructor.
  - apply Forall_app. split; [now apply (HP a) | exact IH].
Qed.

Lemma stage_section_figures (df : DataFrame) (stage : string) (cols : list string)
      (s : component) :
  is_stage_section_of df stage cols s -> Forall log_scaled (figures_of s).
Proof.
  intros (tabs & table & -> & _ & Htabs).
  cbn [figures_of flat_map app]. rewrite app_nil_r.
  eapply log_maps_figures; [| exact Htabs].
  intros col tab. apply log_map_figures.
Qed.

(** C7: every map of the dashboard, in the nitrogen-loss tabs and in the
    three stage sections, is coloured by [np.log1p] of the quantity it
    displays on hover.  Where the quantity is a number [v >= 0], the colour
    value is a finite number [r >= 0], never [nan] or [-inf], and a
    quantity of zero gives exactly zero. *)
Theorem log_maps_nonneg
        (year : string) (w : world)
        (maps table content : component) (slot : list component) (production : component)
        (fig : figure) :
  fst (update_dashboard year w) = Ok (maps, table, content, slot, production) ->
  In fig (figures_of maps ++ figures_of content) ->
  exists title loc color name col raw,
    fig = Choropleth title loc color name (col, raw) /\
    Pandas.np_log1p raw = Ok color /\
    length color = length raw /\
    forall i v,
      nth_error raw i = Some (Num v) ->
      (0 <= v)%Q ->
      exists r : R,
        nth_error color i = Some (Flt (XFin r)) /\
        log1p v = XFin r /\
        (0 <= r)%R /\
        ((v == 0)%Q -> r = 0%R).
Proof.
  intros Hup Hin. rewrite update_dashboard_result in Hup.
  destruct (fst (load_data year w)) as [d | e]; [| discriminate Hup].
  cbn [rbind] in Hup.
  destruct (assemble_maps _ _ _ _ _ _ Hup) as (tabs & total_tab & -> & Htabs & Htotal).
  destruct (assemble_content _ _ _ _ _ _ Hup)
    as (s1 & s2 & s3 & -> & S1 & S2 & S3).
  assert (Hall : Forall log_scaled
                   (figures_of (Div [ H2 "In What Stage Is Nitrogen Lost in the Food and Animal Supply Chain?"
                                         "nitrogen-loss";
                                      Tabs (tabs ++ [total_tab]) ])
                    ++ figures_of (Div [ H2 "Where Does Nitrogen Loss Occur in the Chesapeake Bay?"
                                            "trade-behavior"; s1; s2; s3 ]))).
  { apply Forall_app. split.
    - cbn [figures_of flat_map app]. rewrite app_nil_r, flat_map_app.
      apply Forall_app. split.
      + eapply log_maps_figures; [| exact Htabs].
        intros e tab. apply log_map_figures.
      + cbn [flat_map]. rewrite app_nil_r. eapply log_map_figures. exact Htotal.
    - cbn [figures_of flat_map app]. rewrite app_nil_r.
      repeat (apply Forall_app; split);
        eapply stage_section_figures; eassumption. }
  destruct (proj1 (Forall_forall _ _) Hall fig Hin)
    as (title & loc & color & name & col & raw & -> & Hlg).
  exists title, loc, color, name, col, raw.
  split; [reflexivity |]. split; [exact Hlg |]. split.
  - exact (mapM_length _ _ _ Hlg).
  - intros i v Hi Hv.
    destruct (log1p_of_nonneg v Hv) as (r & Hr & Hpos & Hzero).
    exists r. rewrite <- Hr.
    split; [exact (np_log1p_cells _ _ Hlg i v Hi) |].
    split; [reflexivity |]. split; assumption.
Qed.

(** In the sample the second animal row loses nothing at stage 4: its
    county is at the bottom of the colour scale of that map. *)
Lemma zero_loss_on_the_map :
  exists maps table content slot production title loc color name raw r,
    fst (update_dashboard "2017" Sample.w)
    = Ok (maps, table, content, slot, production) /\
    In (Choropleth title loc color name ("nitrogen_loss4", raw)) (figures_of maps) /\
    nth_error raw 1 = Some (Num 0) /\
    nth_error color 1 = Some (Flt (XFin r)) /\
    r = 0%R.
Proof.
  destruct sample_page_is_rendered
    as (d & maps & table & content & slot & production & E & U).
  pose proof U as Hup. rewrite update_dashboard_result, E in Hup. cbn [rbind] in Hup.
  assert (Hd : fst (load_data "2017" Sample.w) = fst (load_data "2017" Sample.w))
    by reflexivity.
  rewrite E in Hd at 1. vm_compute in Hd. injection Hd as Hd.
  destruct (assemble_maps _ _ _ _ _ _ Hup) as (tabs & total_tab & Hmaps & Htabs & _).
  clear E Hup.
  unfold enumerate, nitrogen_loss_labels in Htabs. cbn [length seq combine] in Htabs.
  inversion Htabs as [| e1 t1 l1 r1 _ H1]; subst; clear Htabs.
  inversion H1 as [| e2 t2 l2 r2 _ H2]; subst; clear H1.
  inversion H2 as [| e3 t3 l3 r3 _ H3]; subst; clear H2.
  inversion H3 as [| e4 t4 l4 r4 T4 H4]; subst; clear H3 H4.
  cbn [fst snd Nat.ltb Nat.leb] in T4.
  destruct T4 as (raw & lg & loc & name & Hraw & Hlg & _ & _ & ->).
  vm_compute in Hraw. injection Hraw as Hraw.
  match type of U with
  | _ = Ok (?m, _, _, _, _) =>
      assert (Hmap : In (Choropleth "<b>Slaughtering/milking/laying N loss</b>"
                                    loc lg name ("nitrogen_loss4", raw))
                        (figures_of m))
  end.
  { cbn [figures_of]. apply in_flat_map. eexists. split; [right; left; reflexivity |].
    cbn [figures_of]. apply in_flat_map. eexists.
    split; [do 3 right; left; reflexivity | left; reflexivity]. }
  destruct (log_maps_nonneg "2017" Sample.w _ table content slot production _ U
              (in_or_app _ _ _ (or_introl Hmap)))
    as (title' & loc' & color' & name' & col' & raw' & Hfig & _ & _ & Hcells).
  injection Hfig as _ _ <- _ _ <-.
  destruct (Hcells 1 0%Q) as (r & Hc & _ & _ & Hzero).
  { rewrite <- Hraw. reflexivity. }
  { discriminate. }
  eexists _, table, content, slot, production,
    "<b>Slaughtering/milking/laying N loss</b>", loc, lg, name, raw, r.
  split; [exact U |]. split; [exact Hmap |].
  split; [rewrite <- Hraw; reflexivity |]. split; [exact Hc |].
  apply Hzero. reflexivity.
Defined.

(** ** The masses on display *)





(** ** Where the trade maps go *)

Lemma px_choropleth_shape (df : DataFrame) (color hover title : string) (fig : figure) :
  px_choropleth df color hover title = Ok fig ->
  exists loc col name hov, fig = Choropleth title loc col name (hover, hov).
Proof.
  unfold px_choropleth. intros H.
  apply rbind_Ok in H as (loc & _ & H). apply rbind_Ok in H as (col & _ & H).
  apply rbind_Ok in H as (name & _ & H). apply rbind_Ok in H as (hov & _ & H).
  injection H as <-. now exists loc, col, name, hov.
Qed.

Lemma stage_tab_shape (stage col : string) (df df' : DataFrame)
      (tabs tabs' : list component) :
  stage_tab stage (df, tabs) col = Ok (df', tabs') ->
  exists t, is_map_tab t /\ tabs' = tabs ++ [t].
Proof.
  unfold stage_tab. intros H.
  apply rbind_Ok in H as (df1 & _ & H). apply rbind_Ok in H as (fig & Hfig & H).
  injection H as _ <-.
  apply px_choropleth_shape in Hfig as (loc & c & name & hov & ->).
  eexists. split; [| reflexivity]. unfold is_map_tab. eauto 10.
Qed.

Lemma stage_section_shape (idx : nat) (stage c0 c1 c2 : string) (fr fr' : frames)
      (secs secs' : list component) :
  stage_section (fr, secs) (idx, (stage, [c0; c1; c2])) = Ok (fr', secs') ->
  exists s, is_stage_section stage s /\ secs' = secs ++ [s].
Proof.
  unfold stage_section. cbn [fst snd foldM]. intros H.
  apply rbind_Ok in H as ([df3 tabs3] & Htabs & H).
  apply rbind_Ok in H as (table & _ & H). injection H as _ <-.
  apply rbind_Ok in Htabs as ([df1 tabs1] & H1 & Htabs).
  apply rbind_Ok in Htabs as ([df2 tabs2] & H2 & Htabs).
  apply rbind_Ok in Htabs as ([df3' tabs3'] & H3 & Htabs).
  injection Htabs as _ <-.
  apply stage_tab_shape in H1 as (t1 & M1 & ->).
  apply stage_tab_shape in H2 as (t2 & M2 & ->).
  apply stage_tab_shape in H3 as (t3 & M3 & ->).
  eexists. split; [| reflexivity].
  exists t1, t2, t3, table. repeat split; assumption.
Qed.

Lemma import_export_sections_shape (fr fr' : frames) (secs : list component) :
  import_export_sections fr = Ok (fr', secs) ->
  exists s1 s2 s3,
    secs = [s1; s2; s3] /\
    is_stage_section "Crop Stage" s1 /\
    is_stage_section "Live Animal Stage" s2 /\
    is_stage_section "Animal Product Stage" s3.
Proof.
  unfold import_export_sections, enumerate, stages.
  cbn [length seq combine foldM]. intros H.
  apply rbind_Ok in H as ([fr1 secs1] & H1 & H).
  apply rbind_Ok in H as ([fr2 secs2] & H2 & H).
  apply rbind_Ok in H as ([fr3 secs3] & H3 & H).
  injection H as _ <-.
  apply stage_section_shape in H1 as (s1 & S1 & ->).
  apply stage_section_shape in H2 as (s2 & S2 & ->).
  apply stage_section_shape in H3 as (s3 & S3 & ->).
  exists s1, s2, s3. repeat split; assumption.
Qed.

(** C9: whenever the callback returns, the children it gives to the
    [import-export-maps] container are the empty list; the nine trade maps
    are in the [import-export-tables] container, three in the section of
    each stage, beside the table of that stage. *)
Theorem trade_maps_slot_empty (year : string) (w : world) (pg : page) :
  fst (update_dashboard_wrapper year w) = Ok pg ->
  import_export_maps pg = [] /\
  exists s1 s2 s3,
    import_export_tables pg
    = Div [ H2 "Where Does Nitrogen Loss Occur in the Chesapeake Bay?" "trade-behavior";
            s1; s2; s3 ] /\
    is_stage_section "Crop Stage" s1 /\
    is_stage_section "Live Animal Stage" s2 /\
    is_stage_section "Animal Product Stage" s3.
Proof.
  unfold update_dashboard_wrapper, mbind, lift.
  pose proof (update_dashboard_result year w) as Hres.
  destruct (update_dashboard year w) as [[out | e] w']; cbn [fst] in *;
    [| discriminate].
  destruct out as [[[[o1 o2] o3] o4] o5]. intros H. injection H as <-.
  cbn [import_export_maps import_export_tables].
  symmetry in Hres. apply rbind_Ok in Hres as (d & _ & Hasm).
  unfold assemble in Hasm.
  apply rbind_Ok in Hasm as ([fr1 tabs] & _ & Hasm).
  apply rbind_Ok in Hasm as (fig & _ & Hasm).
  apply rbind_Ok in Hasm as (table & _ & Hasm).
  apply rbind_Ok in Hasm as ([fr2 secs] & Hsecs & Hasm).
  apply rbind_Ok in Hasm as (inv & _ & Hasm).
  injection Hasm as _ _ <- <- _.
  split; [reflexivity |].
  apply import_export_sections_shape in Hsecs as (s1 & s2 & s3 & -> & S1 & S2 & S3).
  exists s1, s2, s3. repeat split; assumption.
Qed.

(** The sample scenario renders, with nothing in the maps container. *)
Lemma trade_maps_sample :
  exists pg,
    fst (update_dashboard_wrapper "2017" Sample.w) = Ok pg /\
    import_export_maps pg = [].
Proof.
  destruct (fst (update_dashboard_wrapper "2017" Sample.w)) as [pg | e] eqn:E.
  - exists pg. split; [reflexivity |].
    apply (trade_maps_slot_empty "2017" Sample.w pg E).
  - exfalso. lazy -[log1p] in E. discriminate E.
Defined.

(* ================================================================== *)
(** * Further properties of the code *)

(** ** Scenario years *)

Lemma raise_through_update (year : string) (w : world) (e : exn) :
  fst (load_data year w) = Raise e ->
  fst (update_dashboard year w) = Raise e /\
  fst (update_dashboard_wrapper year w) = Raise e.
Proof.
  intros H.
  assert (Hup : fst (update_dashboard year w) = Raise e).
  { rewrite update_dashboard_result, H. reflexivity. }
  split; [exact Hup | now apply wrapper_raises].
Qed.

(** A year that the dropdown does not offer is not a key of [data_paths]:
    [load_data] raises [KeyError] on its first line, before any file is
    read, and the callback raises the same. *)
Theorem unregistered_year_raises (year : string) (w : world) :
  ~ In year (selectable_years w) ->
  fst (load_data year w) = Raise (KeyError year) /\
  fst (update_dashboard year w) = Raise (KeyError year) /\
  fst (update_dashboard_wrapper year w) = Raise (KeyError year).
Proof.
  intros Hnot.
  assert (H : fst (load_data year w) = Raise (KeyError year)).
  { unfold load_data, mbind, get_data_path. unfold selectable_years in Hnot.
    cbn in Hnot. simpl dict_get.
    destruct (String.eqb_spec year "2017") as [-> | _]; [tauto |].
    destruct (String.eqb_spec year "2030") as [-> | _]; [tauto |].
    destruct (String.eqb_spec year "2050") as [-> | _]; [tauto |].
    reflexivity. }
  split; [exact H | now apply raise_through_update].
Qed.

(** 2040 is not a scenario. *)
Lemma year_2040_raises :
  fst (update_dashboard_wrapper "2040" Sample.w) = Raise (KeyError "2040").
Proof.
  apply (unregistered_year_raises "2040" Sample.w).
  cbn. intros [H | [H | [H | []]]]; discriminate H.
Defined.

(** Every year the dropdown offers, the one selected at start included, is
    a key of [data_paths] and leads to the directory [data/<year>] beside
    the script. *)
Lemma selectable_year_has_path (year : string) (w : world) :
  In year (selectable_years w) ->
  fst (get_data_path year w)
  = Ok (path_join (path_join (base_dir w) "data") year) /\
  In (value (year_dropdown w)) (selectable_years w).
Proof.
  intros Hin. split.
  - unfold selectable_years in Hin. cbn in Hin.
    destruct Hin as [<- | [<- | [<- | []]]]; reflexivity.
  - cbn. now left.
Qed.

Lemma start_year_has_path :
  fst (get_data_path "2017" Sample.w) = Ok Sample.dir.
Proof.
  apply (selectable_year_has_path "2017" Sample.w). cbn. now left.
Defined.

Lemma registered_path (year path : string) (w : world) :
  dict_get (data_paths w) year = Ok path ->
  path = path_join (path_join (base_dir w) "data") year.
Proof.
  simpl dict_get.
  destruct (String.eqb_spec year "2017") as [-> | _]; [now intros [= <-] |].
  destruct (String.eqb_spec year "2030") as [-> | _]; [now intros [= <-] |].
  destruct (String.eqb_spec year "2050") as [-> | _]; [now intros [= <-] |].
  discriminate.
Qed.

(** The result of [load_data], from the states of the five files. *)
Lemma load_data_files (year path : string) (w : world) :
  dict_get (data_paths w) year = Ok path ->
  fst (load_data year w)
  = match files w (path_join path "nitrogen_losses_summary.csv"),
          files w (path_join path "harvested_area_by_commodity.csv"),
          files w (path_join path "inventory_by_commodity.csv"),
          files w (path_join path "crop_processing_nitrogen.csv"),
          files w (path_join path "animal_stage_nitrogen.csv") with
    | Parsed n, Parsed a, Parsed i, Parsed c, Parsed an => derive n a i c an
    | Absent, _, _, _, _ =>
        Raise (FileNotFoundError (path_join path "nitrogen_losses_summary.csv"))
    | Garbled, _, _, _, _ =>
        Raise (ParserError (path_join path "nitrogen_losses_summary.csv"))
    | _, Absent, _, _, _ =>
        Raise (FileNotFoundError (path_join path "harvested_area_by_commodity.csv"))
    | _, Garbled, _, _, _ =>
        Raise (ParserError (path_join path "harvested_area_by_commodity.csv"))
    | _, _, Absent, _, _ =>
        Raise (FileNotFoundError (path_join path "inventory_by_commodity.csv"))
    | _, _, Garbled, _, _ =>
        Raise (ParserError (path_join path "inventory_by_commodity.csv"))
    | _, _, _, Absent, _ =>
        Raise (FileNotFoundError (path_join path "crop_processing_nitrogen.csv"))
    | _, _, _, Garbled, _ =>
        Raise (ParserError (path_join path "crop_processing_nitrogen.csv"))
    | _, _, _, _, Absent =>
        Raise (FileNotFoundError (path_join path "animal_stage_nitrogen.csv"))
    | _, _, _, _, Garbled =>
        Raise (ParserError (path_join path "animal_stage_nitrogen.csv"))
    end.
Proof.
  intros Hp. unfold load_data, mbind, get_data_path, read_csv, lift. rewrite Hp.
  destruct (files w (path_join path "nitrogen_losses_summary.csv")); try reflexivity.
  destruct (files w (path_join path "harvested_area_by_commodity.csv")); try reflexivity.
  destruct (files w (path_join path "inventory_by_commodity.csv")); try reflexivity.
  destruct (files w (path_join path "crop_processing_nitrogen.csv")); try reflexivity.
  destruct (files w (path_join path "animal_stage_nitrogen.csv")); reflexivity.
Qed.

(** For a year of the dropdown, [load_data] reads the five CSV files of
    [data/<year>] beside the script; when all five parse, its result is what
    the rest of its body makes of these five tables. *)
Lemma selected_year_loads (year : string) (w : world) (n a i c an : DataFrame) :
  In year (selectable_years w) ->
  files w (scenario_file w year "nitrogen_losses_summary.csv") = Parsed n ->
  files w (scenario_file w year "harvested_area_by_commodity.csv") = Parsed a ->
  files w (scenario_file w year "inventory_by_commodity.csv") = Parsed i ->
  files w (scenario_file w year "crop_processing_nitrogen.csv") = Parsed c ->
  files w (scenario_file w year "animal_stage_nitrogen.csv") = Parsed an ->
  fst (load_data year w) = derive n a i c an /\
  fst (update_dashboard year w) = rbind (derive n a i c an) assemble.
Proof.
  intros Hin Hn Ha Hi Hc Han.
  destruct (selectable_year_has_path year w Hin) as [Hp _].
  unfold get_data_path in Hp. cbn [fst] in Hp.
  assert (H : fst (load_data year w) = derive n a i c an).
  { rewrite (load_data_files _ _ _ Hp). unfold scenario_file in *.
    now rewrite Hn, Ha, Hi, Hc, Han. }
  split; [exact H |]. now rewrite update_dashboard_result, H.
Qed.

Lemma sample_year_loads :
  fst (load_data "2017" Sample.w)
  = derive Sample.summary Sample.area Sample.inventory Sample.crop Sample.animal.
Proof.
  apply (selected_year_loads "2017" Sample.w); try reflexivity.
  cbn. now left.
Defined.

(** [update_dashboard] looks at the directory of the script and at the five
    files of the selected year, and at nothing else: two worlds that agree
    on these give the same result, whatever their other files hold. *)
Theorem other_files_unread (year : string) (w w' : world) :
  base_dir w = base_dir w' ->
  (forall name, In name source_files ->
                files w (scenario_file w year name)
                = files w' (scenario_file w year name)) ->
  fst (load_data year w) = fst (load_data year w') /\
  fst (update_dashboard year w) = fst (update_dashboard year w').
Proof.
  intros Hbase Hsame.
  assert (H : fst (load_data year w) = fst (load_data year w')).
  { assert (Hpaths : data_paths w = data_paths w').
    { unfold data_paths. now rewrite Hbase. }
    destruct (dict_get (data_paths w) year) as [path | e] eqn:Hp.
    - rewrite (load_data_files year path w Hp).
      rewrite Hpaths in Hp. rewrite (load_data_files year path w' Hp).
      rewrite <- Hpaths in Hp. apply registered_path in Hp. subst path.
      unfold scenario_file in Hsame.
      rewrite !Hsame by (unfold source_files; simpl; tauto). reflexivity.
    - unfold load_data, mbind, get_data_path. rewrite <- Hpaths, Hp. reflexivity. }
  split; [exact H |]. now rewrite !update_dashboard_result, H.
Qed.

(** A crop table dropped into [data/2030] does not change the page of
    2017. *)
Lemma other_year_unread :
  fst (update_dashboard "2017" Sample.w)
  = fst (update_dashboard "2017" Sample2.w_2030).
Proof.
  apply (other_files_unread "2017" Sample.w Sample2.w_2030).
  - reflexivity.
  - intros name Hin.
    destruct Hin as [<- | [<- | [<- | [<- | [<- | []]]]]]; reflexivity.
Defined.

(** ** The columns of the loaded tables *)

Lemma replace_selfloop_prefix (col : string) :
  PyStr.startswith col "selfloop" = true ->
  PyStr.replace col "selfloop" "within_county"
  = ("within_county"
       ++ PyStr.replace_from "selfloop" "within_county" 0 (PyStr.drop 8 col))%string.
Proof.
  intros Hp. destruct col as [| c col]; [discriminate |].
  unfold PyStr.replace. cbn [PyStr.replace_from].
  unfold PyStr.startswith in Hp. rewrite Hp.
  rewrite replace_from_skip. reflexivity.
Qed.

(** No label starts with [selfloop] once it is renamed. *)
Lemma rename_column_fresh (col : string) :
  PyStr.startswith (rename_column col) "selfloop" = false.
Proof.
  unfold rename_column.
  destruct (PyStr.startswith col "selfloop") eqn:E; [| exact E].
  rewrite replace_selfloop_prefix by exact E. reflexivity.
Qed.

Lemma rename_column_total (col : string) :
  rename_column col = "total_nitrogen_loss" -> col = "total_nitrogen_loss".
Proof.
  unfold rename_column.
  destruct (PyStr.startswith col "selfloop") eqn:E; [| tauto].
  rewrite replace_selfloop_prefix by exact E. discriminate.
Qed.

Lemma columns_setitem (df : DataFrame) (c : string) (s : Series) :
  Pandas.columns (Pandas.setitem df c s)
  = if Pandas.has_column df c then Pandas.columns df else Pandas.columns df ++ [c].
Proof.
  unfold Pandas.setitem, Pandas.columns.
  destruct (Pandas.has_column df c).
  - rewrite map_map. apply map_ext. intros p. now destruct (Pandas.labelled c p).
  - now rewrite map_app.
Qed.

Lemma nth_error_setitem_other (df : DataFrame) (c name : string) (s s0 : Series) (i : nat) :
  nth_error df i = Some (name, s0) ->
  name <> c ->
  nth_error (Pandas.setitem df c s) i = Some (name, s0).
Proof.
  intros Hi Hne. unfold Pandas.setitem.
  destruct (Pandas.has_column df c).
  - rewrite (map_nth_error _ _ _ Hi). unfold Pandas.labelled. cbn [fst].
    now rewrite (proj2 (String.eqb_neq _ _) Hne).
  - rewrite nth_error_app1; [exact Hi |].
    apply nth_error_Some. rewrite Hi. discriminate.
Qed.

Lemma nth_error_combine {A B} (l : list A) (l' : list B) (i : nat) (a : A) (b : B) :
  nth_error l i = Some a -> nth_error l' i = Some b ->
  nth_error (combine l l') i = Some (a, b).
Proof.
  revert l' i. induction l as [| x l IH]; intros [| y l'] [| i] Ha Hb;
    try discriminate; simpl in *.
  - now injection Ha as ->; injection Hb as ->.
  - now apply IH.
Qed.

Lemma renamed_then_total (file df1 df2 : DataFrame) (cols : list string) :
  rename_columns file = Ok df1 ->
  add_total df1 cols = Ok df2 ->
  renamed_with_total file df2.
Proof.
  intros Hren Hadd.
  destruct (rename_columns_Ok file) as (df1' & Hren' & Hcols & Hvals).
  rewrite Hren in Hren'. injection Hren' as <-.
  unfold add_total in Hadd.
  apply rbind_Ok in Hadd as (sel & _ & Hadd).
  apply rbind_Ok in Hadd as (t & _ & Hadd). injection Hadd as <-.
  unfold renamed_with_total. rewrite columns_setitem.
  unfold Pandas.has_column. rewrite Hcols. split; [reflexivity |]. split.
  - intros i name s Hi Hne. apply nth_error_setitem_other; [| exact Hne].
    unfold rename_columns, Pandas.set_columns in Hren.
    destruct (length (map rename_column (Pandas.columns file)) =? length file);
      [| discriminate].
    injection Hren as <-. apply nth_error_combine.
    + apply map_nth_error with (f := rename_column).
      unfold Pandas.columns. now rewrite (map_nth_error fst _ _ Hi).
    + unfold Pandas.values. now rewrite (map_nth_error snd _ _ Hi).
  - assert (Hfresh : Forall (fun name => PyStr.startswith name "selfloop" = false)
                            (map rename_column (Pandas.columns file))).
    { apply Forall_forall. intros x Hx. apply in_map_iff in Hx as (y & <- & _).
      apply rename_column_fresh. }
    destruct (existsb _ _); [exact Hfresh |].
    apply Forall_app. split; [exact Hfresh | repeat constructor].
Qed.

(** The crop and animal tables [load_data] returns are the tables of the
    files with the labels renamed in place and the cells of every other
    column untouched; [total_nitrogen_loss] comes last (or replaces a column
    of that label), and no label starts with [selfloop] any more. *)
Theorem loaded_tables_columns (year : string) (w : world) (d : loaded)
        (c an : DataFrame) :
  fst (load_data year w) = Ok d ->
  files w (scenario_file w year "crop_processing_nitrogen.csv") = Parsed c ->
  files w (scenario_file w year "animal_stage_nitrogen.csv") = Parsed an ->
  renamed_with_total c (crop_processing_nitrogen_df d) /\
  renamed_with_total an (animal_stage_nitrogen_df d).
Proof.
  intros Hload Hc Han.
  apply load_data_inv in Hload
      as (path & n & a & i & c' & an' & Hp & _ & _ & _ & Hc' & Han' & Hd).
  apply registered_path in Hp. subst path. unfold scenario_file in *.
  rewrite Hc in Hc'. rewrite Han in Han'.
  injection Hc' as <-. injection Han' as <-.
  apply derive_inv in Hd
      as (crop1 & animal1 & crop2 & animal2 & total & R1 & R2 & T1 & T2 & _ & ->).
  cbn [crop_processing_nitrogen_df animal_stage_nitrogen_df].
  split; eapply renamed_then_total; eassumption.
Qed.

Lemma sample_tables_columns :
  exists d,
    fst (load_data "2017" Sample.w) = Ok d /\
    Pandas.columns (crop_processing_nitrogen_df d)
    = [ "FIPS"; "county"; "commodity"; "nitrogen_loss1"; "nitrogen_loss2";
        "import_crop_processing_nitrogen"; "export_crop_processing_nitrogen";
        "within_county_crop_processing_nitrogen"; "total_nitrogen_loss" ].
Proof.
  destruct (fst (load_data "2017" Sample.w)) as [d | e] eqn:E;
    [| vm_compute in E; discriminate E].
  destruct (loaded_tables_columns "2017" Sample.w d Sample.crop Sample.animal E)
    as ((Hcols & _) & _); try reflexivity.
  exists d. split; [reflexivity |]. rewrite Hcols. reflexivity.
Defined.

(** ** Tables without a required column *)

Lemma rename_column_eq (col target : string) :
  rename_column col = target ->
  PyStr.startswith target "within_county" = false ->
  col = target.
Proof.
  unfold rename_column.
  destruct (PyStr.startswith col "selfloop") eqn:E; [| tauto].
  rewrite replace_selfloop_prefix by exact E. intros <- H.
  unfold PyStr.startswith in H. now rewrite prefix_append in H.
Qed.

Lemma getitem_has_column (df : DataFrame) (col : string) (s : Series) :
  Pandas.getitem df col = Ok s -> Pandas.has_column df col = true.
Proof.
  intros H. apply getitem_In in H. unfold Pandas.has_column.
  apply existsb_exists. exists col. split; [| apply String.eqb_refl].
  unfold Pandas.columns. now apply (in_map fst) in H.
Qed.

Lemma has_column_missing (df : DataFrame) (col : string) :
  Pandas.has_column df col = false -> Pandas.getitem df col = Raise (KeyError col).
Proof.
  intros H. unfold Pandas.getitem.
  destruct (filter (Pandas.labelled col) df) as [| p l] eqn:E; [reflexivity |].
  exfalso.
  assert (Hin : In p (filter (Pandas.labelled col) df)) by (rewrite E; now left).
  apply filter_In in Hin as [Hin Hl].
  assert (Pandas.has_column df col = true); [| congruence].
  unfold Pandas.has_column. apply existsb_exists. exists (fst p). split.
  - unfold Pandas.columns. now apply in_map.
  - unfold Pandas.labelled in Hl. now rewrite String.eqb_sym.
Qed.

Lemma renamed_has_column (file df : DataFrame) (col : string) :
  rename_columns file = Ok df ->
  PyStr.startswith col "within_county" = false ->
  Pandas.has_column df col = true ->
  Pandas.has_column file col = true.
Proof.
  intros Hren Hcol.
  destruct (rename_columns_Ok file) as (df' & Hren' & Hcols & _).
  rewrite Hren in Hren'. injection Hren' as <-.
  unfold Pandas.has_column. rewrite Hcols. rewrite !existsb_exists.
  intros (x & Hx & E). apply in_map_iff in Hx as (y & Hy & Hin).
  apply String.eqb_eq in E. rewrite <- E in Hy.
  apply rename_column_eq in Hy; [| exact Hcol]. subst y.
  exists col. split; [exact Hin | apply String.eqb_refl].
Qed.

Lemma select_has_columns (df sel : DataFrame) (cols : list string) :
  Pandas.select df cols = Ok sel ->
  forall col, In col cols -> Pandas.has_column df col = true.
Proof.
  intros H. apply select_Ok_columns in H.
  now apply (select_columns_present df sel).
Qed.

Lemma has_column_setitem (df : DataFrame) (c col : string) (s : Series) :
  col <> c ->
  Pandas.has_column (Pandas.setitem df c s) col = Pandas.has_column df col.
Proof.
  intros Hne. unfold Pandas.has_column at 1. rewrite columns_setitem.
  destruct (Pandas.has_column df c); [reflexivity |].
  rewrite existsb_app. cbn [existsb].
  rewrite (proj2 (String.eqb_neq _ _) Hne). unfold Pandas.has_column.
  now rewrite !orb_false_r.
Qed.

(** What a table must hold for [load_data] to go through. *)
Lemma add_total_requires (file df1 df2 other sel : DataFrame) (cols : list string) :
  rename_columns file = Ok df1 ->
  add_total df1 cols = Ok df2 ->
  Pandas.select df2 county_total_columns = Ok sel ->
  forall col, In col ("FIPS" :: "county" :: cols) ->
              PyStr.startswith col "within_county" = false ->
              col <> "total_nitrogen_loss" ->
              Pandas.has_column file col = true.
Proof.
  intros Hren Hadd Hsel col Hin Hcol Hne.
  apply (renamed_has_column file df1 col Hren Hcol).
  unfold add_total in Hadd.
  apply rbind_Ok in Hadd as (losses & Hlosses & Hadd).
  apply rbind_Ok in Hadd as (t & _ & Hadd). injection Hadd as <-.
  destruct Hin as [<- | [<- | Hin]].
  - rewrite <- (has_column_setitem df1 "total_nitrogen_loss" "FIPS" t) by discriminate.
    apply (select_has_columns _ _ _ Hsel). simpl. tauto.
  - rewrite <- (has_column_setitem df1 "total_nitrogen_loss" "county" t) by discriminate.
    apply (select_has_columns _ _ _ Hsel). simpl. tauto.
  - now apply (select_has_columns _ _ _ Hlosses).
Qed.

Lemma renamed_keeps_column (file df : DataFrame) (col : string) :
  rename_columns file = Ok df ->
  PyStr.startswith col "within_county" = false ->
  PyStr.startswith col "selfloop" = false ->
  Pandas.has_column df col = Pandas.has_column file col.
Proof.
  intros Hren Hw Hs.
  destruct (Pandas.has_column df col) eqn:E.
  - symmetry. now apply (renamed_has_column file df col Hren Hw).
  - destruct (Pandas.has_column file col) eqn:F; [| reflexivity].
    destruct (rename_columns_Ok file) as (df' & Hren' & Hcols & _).
    rewrite Hren in Hren'. injection Hren' as <-.
    unfold Pandas.has_column in E, F. rewrite Hcols in E. rewrite <- E.
    apply existsb_exists in F as (x & Hx & Ex). apply String.eqb_eq in Ex. subst x.
    apply existsb_exists. exists col. split; [| apply String.eqb_refl].
    apply in_map_iff. exists col. split; [| exact Hx].
    unfold rename_column. now rewrite Hs.
Qed.

(** A crop table without one of [FIPS], [county], [nitrogen_loss1],
    [nitrogen_loss2], or an animal table without one of [FIPS], [county],
    [nitrogen_loss3] .. [nitrogen_loss7], makes [load_data] raise: the
    callback returns no artifact.  When loss columns of the crop table are
    missing, the exception is the [KeyError] of the first list selection,
    which names the missing crop loss columns. *)
Theorem missing_column_raises (year : string) (w : world) (n a i c an : DataFrame) :
  In year (selectable_years w) ->
  files w (scenario_file w year "nitrogen_losses_summary.csv") = Parsed n ->
  files w (scenario_file w year "harvested_area_by_commodity.csv") = Parsed a ->
  files w (scenario_file w year "inventory_by_commodity.csv") = Parsed i ->
  files w (scenario_file w year "crop_processing_nitrogen.csv") = Parsed c ->
  files w (scenario_file w year "animal_stage_nitrogen.csv") = Parsed an ->
  (exists col, In col crop_required_columns /\ Pandas.has_column c col = false) \/
  (exists col, In col animal_required_columns /\ Pandas.has_column an col = false) ->
  (exists e, fst (load_data year w) = Raise e /\
             fst (update_dashboard_wrapper year w) = Raise e) /\
  (filter (fun col => negb (Pandas.has_column c col)) crop_loss_columns <> [] ->
   fst (load_data year w)
   = Raise (KeyErrorIndex
              (filter (fun col => negb (Pandas.has_column c col)) crop_loss_columns))).
Proof.
  intros Hin Hn Ha Hi Hc Han Hmiss.
  destruct (selected_year_loads year w n a i c an Hin Hn Ha Hi Hc Han) as [Hload _].
  split.
  - destruct (derive n a i c an) as [d | e] eqn:Hd.
    + exfalso.
      apply derive_inv in Hd
          as (crop1 & animal1 & crop2 & animal2 & total & R1 & R2 & T1 & T2 & Ht & _).
      unfold total_nitrogen in Ht.
      apply rbind_Ok in Ht as (sc & Hsc & Ht). apply rbind_Ok in Ht as (sa & Hsa & _).
      destruct Hmiss as [(col & Hcol & Hno) | (col & Hcol & Hno)].
      * rewrite (add_total_requires _ _ _ crop2 _ _ R1 T1 Hsc col) in Hno;
          [discriminate | exact Hcol | |];
          destruct Hcol as [<- | [<- | [<- | [<- | []]]]];
          (reflexivity || discriminate).
      * rewrite (add_total_requires _ _ _ animal2 _ _ R2 T2 Hsa col) in Hno;
          [discriminate | exact Hcol | |];
          destruct Hcol as [<- | [<- | [<- | [<- | [<- | [<- | [<- | []]]]]]]];
          (reflexivity || discriminate).
    + exists e. split; [exact Hload |]. now apply raise_through_update.
  - intros Hno. rewrite Hload. unfold derive.
    destruct (rename_columns_Ok c) as (crop1 & R1 & _).
    destruct (rename_columns_Ok an) as (animal1 & R2 & _).
    rewrite R1, R2. cbn [rbind].
    unfold add_total at 1, Pandas.select.
    rewrite (filter_ext_in (fun col => negb (Pandas.has_column crop1 col))
                           (fun col => negb (Pandas.has_column c col))).
    + destruct (filter (fun col => negb (Pandas.has_column c col)) crop_loss_columns);
        [contradiction | reflexivity].
    + intros col Hcol. f_equal.
      apply (renamed_keeps_column c crop1 col R1);
        destruct Hcol as [<- | [<- | []]]; reflexivity.
Qed.

(** The crop table of the sample, its first loss column taken out. *)
Lemma no_loss1_raises :
  fst (load_data "2017" Sample2.w_no_loss1)
  = Raise (KeyErrorIndex ["nitrogen_loss1"]).
Proof.
  apply (missing_column_raises "2017" Sample2.w_no_loss1
           Sample.summary Sample.area Sample.inventory
           Sample2.crop_no_loss1 Sample.animal); try reflexivity.
  - cbn. now left.
  - left. exists "nitrogen_loss1". split; [simpl; tauto | reflexivity].
  - discriminate.
Defined.

(** ** The log columns and what is displayed *)

(** Every nitrogen-loss map shows the loaded values.  The first
    returned value holds eight tabs: one per loss category, labelled by the
    category, the first two drawn from the crop table and the other five
    from the animal table, and a last one for the county totals.  Each map
    is coloured by [np.log1p] of its column and shows the column itself on
    hover, as [load_data] returned it. *)
Theorem loss_maps_show_loaded_values
        (year : string) (w : world) (d : loaded)
        (maps table content : component) (slot : list component) (production : component) :
  fst (load_data year w) = Ok d ->
  fst (update_dashboard year w) = Ok (maps, table, content, slot, production) ->
  exists tabs total_tab,
    maps = Div [ H2 "In What Stage Is Nitrogen Lost in the Food and Animal Supply Chain?"
                    "nitrogen-loss";
                 Tabs (tabs ++ [total_tab]) ] /\
    Forall2 (fun e tab =>
               is_log_map (if fst e <? 2 then crop_processing_nitrogen_df d
                           else animal_stage_nitrogen_df d)
                          (fst (snd e)) (snd (snd e))
                          ("<b>" ++ snd (snd e) ++ "</b>")%string tab)
            (enumerate nitrogen_loss_labels) tabs /\
    is_log_map (total_nitrogen_df d) "total_nitrogen_loss" "Total Nitrogen Loss"
               "<b>Total Nitrogen Loss by County</b>" total_tab.
Proof.
  intros Hload Hup. rewrite update_dashboard_result, Hload in Hup.
  cbn [rbind] in Hup. unfold assemble in Hup.
  apply rbind_Ok in Hup as ([fr1 tabs] & Htabs & Hup).
  apply rbind_Ok in Hup as (fig & Hfig & Hup).
  apply rbind_Ok in Hup as (lt & _ & Hup).
  apply rbind_Ok in Hup as ([fr2 secs] & _ & Hup).
  apply rbind_Ok in Hup as (inv & _ & Hup).
  injection Hup as <- _ _ _ _.
  apply nitrogen_loss_tabs_maps in Htabs as (Hmaps & _ & _).
  cbn [crop_df animal_df] in Hmaps.
  exists tabs, (Tab "Total Nitrogen Loss" [Graph fig]).
  split; [reflexivity |]. split; [exact Hmaps |].
  unfold total_loss_fig in Hfig.
  apply rbind_Ok in Hfig as (total1 & Hadd & Hfig).
  now apply (log_map_step (total_nitrogen_df d) (total_nitrogen_df d) total1
               "total_nitrogen_loss" "Total Nitrogen Loss" _ fig
               (same_data_refl _) eq_refl Hadd).
Qed.

(** The tables show the loaded values as well: the table of the loss
    categories is computed from the crop and animal tables as [load_data]
    returned them, and each of the three stage sections holds the maps and
    the summary table of the loaded table of its stage (the crop table for
    the first stage, the animal table for the other two).  The log columns
    that the loops write into these tables in between change none of
    this. *)
Theorem tables_show_loaded_values
        (year : string) (w : world) (d : loaded)
        (maps table content : component) (slot : list component) (production : component) :
  fst (load_data year w) = Ok d ->
  fst (update_dashboard year w) = Ok (maps, table, content, slot, production) ->
  (exists t,
      table = DataTable t /\
      nitrogen_loss_table {| crop_df := crop_processing_nitrogen_df d;
                             animal_df := animal_stage_nitrogen_df d |} = Ok t) /\
  (exists s1 s2 s3,
      content = Div [ H2 "Where Does Nitrogen Loss Occur in the Chesapeake Bay?"
                         "trade-behavior"; s1; s2; s3 ] /\
      is_stage_section_of (crop_processing_nitrogen_df d) "Crop Stage"
        ["import_crop_processing_nitrogen"; "export_crop_processing_nitrogen";
         "within_county_crop_processing_nitrogen"] s1 /\
      is_stage_section_of (animal_stage_nitrogen_df d) "Live Animal Stage"
        ["import_animal_nitrogen"; "export_animal_nitrogen";
         "within_county_animal_nitrogen"] s2 /\
      is_stage_section_of (animal_stage_nitrogen_df d) "Animal Product Stage"
        ["import_meat_nitrogen"; "export_meat_nitrogen";
         "within_county_meat_nitrogen"] s3).
Proof.
  intros Hload Hup. rewrite update_dashboard_result, Hload in Hup.
  cbn [rbind] in Hup. unfold assemble in Hup.
  apply rbind_Ok in Hup as ([fr1 tabs] & Htabs & Hup).
  apply rbind_Ok in Hup as (fig & _ & Hup).
  apply rbind_Ok in Hup as (lt & Hlt & Hup).
  apply rbind_Ok in Hup as ([fr2 secs] & Hsecs & Hup).
  apply rbind_Ok in Hup as (inv & _ & Hup).
  injection Hup as _ <- <- _ _.
  apply nitrogen_loss_tabs_maps in Htabs as (_ & Hc & Ha).
  cbn [crop_df animal_df] in Hc, Ha.
  split.
  - exists lt. split; [reflexivity |].
    now rewrite <- (nitrogen_loss_table_same_data
                      {| crop_df := crop_processing_nitrogen_df d;
                         animal_df := animal_stage_nitrogen_df d |} fr1 Hc Ha).
  - unfold import_export_sections in Hsecs.
    destruct (stage_sections_from
                {| crop_df := crop_processing_nitrogen_df d;
                   animal_df := animal_stage_nitrogen_df d |}
                (enumerate stages)) with
        (fr1 := fr1) (secs1 := @nil component) (fr2 := fr2) (secs2 := secs)
      as (new & -> & Hnew); try assumption.
    { repeat constructor. }
    unfold enumerate, stages in Hnew. cbn [length seq combine] in Hnew.
    inversion Hnew as [| e1 s1 l1 r1 S1 Hnew1]; subst.
    inversion Hnew1 as [| e2 s2 l2 r2 S2 Hnew2]; subst.
    inversion Hnew2 as [| e3 s3 l3 r3 S3 Hnew3]; subst.
    inversion Hnew3; subst.
    exists s1, s2, s3. split; [reflexivity |].
    repeat split; assumption.
Qed.

Lemma sample_loss_maps :
  exists d maps table content slot production tabs,
    fst (load_data "2017" Sample.w) = Ok d /\
    fst (update_dashboard "2017" Sample.w)
    = Ok (maps, table, content, slot, production) /\
    length tabs = 7 /\
    exists total_tab,
      maps = Div [ H2 "In What Stage Is Nitrogen Lost in the Food and Animal Supply Chain?"
                      "nitrogen-loss";
                   Tabs (tabs ++ [total_tab]) ].
Proof.
  destruct sample_page_is_rendered
    as (d & maps & table & content & slot & production & E & U).
  destruct (loss_maps_show_loaded_values "2017" Sample.w d _ _ _ _ _ E U)
    as (tabs & total_tab & Hmaps & Htabs & _).
  exists d, maps, table, content, slot, production, tabs.
  split; [exact E |]. split; [exact U |]. split.
  - apply Forall2_length in Htabs. rewrite <- Htabs. reflexivity.
  - exists total_tab. exact Hmaps.
Defined.

Lemma sample_tables :
  exists d maps table content slot production t,
    fst (load_data "2017" Sample.w) = Ok d /\
    fst (update_dashboard "2017" Sample.w)
    = Ok (maps, table, content, slot, production) /\
    table = DataTable t /\
    nitrogen_loss_table {| crop_df := crop_processing_nitrogen_df d;
                           animal_df := animal_stage_nitrogen_df d |} = Ok t.
Proof.
  destruct sample_page_is_rendered
    as (d & maps & table & content & slot & production & E & U).
  destruct (tables_show_loaded_values "2017" Sample.w d _ _ _ _ _ E U)
    as ((t & Ht & Hlt) & _).
  exists d, maps, table, content, slot, production, t.
  split; [exact E |]. split; [exact U |]. split; [exact Ht | exact Hlt].
Defined.

(** ** The county totals add up *)

Lemma total_value_app (l l' : list cell) :
  (total_value (l ++ l') == total_value l + total_value l')%Q.
Proof.
  induction l as [| c l IH]; simpl; [ring | rewrite IH; ring].
Qed.

Lemma qsum_perm (l l' : list Q) : Permutation l l' -> (qsum l == qsum l')%Q.
Proof.
  induction 1; simpl.
  - reflexivity.
  - now rewrite IHPermutation.
  - ring.
  - now rewrite IHPermutation1.
Qed.

Section GroupTotals.
Variable T : Series.

(** The sum of column [T] over the rows of all groups. *)
Let groups_total (gs : list (Pandas.key * list nat)) : Q :=
  qsum (map (fun g => total_value (Pandas.take T (snd g))) gs).

Lemma groups_total_add (k : Pandas.key) (i : nat) (gs : list (Pandas.key * list nat)) :
  (groups_total (Pandas.add_to_group k i gs)
   == groups_total gs + cell_value (nth i T NaN))%Q.
Proof.
  unfold groups_total. induction gs as [| [k' idx] gs IH]; simpl.
  - ring.
  - destruct (Pandas.key_eqb k k'); simpl.
    + unfold Pandas.take. rewrite map_app, total_value_app. simpl. ring.
    + rewrite IH. ring.
Qed.

Lemma groups_total_fold (keys : Series) (l : list nat)
      (gs : list (Pandas.key * list nat)) :
  (groups_total (fold_left (Pandas.group_step keys) l gs)
   == groups_total gs + total_value (Pandas.take T (filter (keyed keys) l)))%Q.
Proof.
  revert gs. induction l as [| i l IH]; intros gs; simpl.
  - ring.
  - rewrite IH. unfold Pandas.group_step, keyed.
    destruct (Pandas.key_of_cell (nth i keys NaN)); [| reflexivity].
    rewrite groups_total_add. simpl. ring.
Qed.

Lemma groups_total_groupby (keys : Series) :
  (groups_total (Pandas.groupby keys)
   == total_value (Pandas.take T (keyed_rows keys)))%Q.
Proof.
  unfold Pandas.groupby, groups_total.
  rewrite (qsum_perm _ _ (Permutation_map _ (sort_groups_perm _))).
  fold (groups_total (Pandas.group_rows keys)).
  unfold Pandas.group_rows. rewrite groups_total_fold.
  unfold groups_total, keyed_rows. simpl. ring.
Qed.

Lemma group_sums_total (gs : list (Pandas.key * list nat)) (sums : list cell) :
  mapM (fun g => Pandas.aggregate Pandas.AggSum (Pandas.take T (snd g))) gs = Ok sums ->
  (total_value sums == groups_total gs)%Q.
Proof.
  unfold groups_total. revert sums.
  induction gs as [| g gs IH]; intros sums H; simpl in H.
  - injection H as <-. reflexivity.
  - apply rbind_Ok in H as (c & Hc & H). apply rbind_Ok in H as (rest & Hrest & H).
    injection H as <-. apply rbind_Ok in Hc as (t & Ht & Hc). injection Hc as <-.
    apply series_sum_value in Ht. simpl. now rewrite Ht, (IH rest Hrest).
Qed.

End GroupTotals.

Lemma take_all (s : Series) : Pandas.take s (seq 0 (length s)) = s.
Proof.
  unfold Pandas.take. induction s as [| c s IH]; [reflexivity |].
  cbn [length seq map nth]. f_equal.
  rewrite <- seq_shift, map_map. exact IH.
Qed.

Lemma keyed_rows_all (keys : Series) :
  (forall c, In c keys -> Pandas.key_of_cell c <> None) ->
  keyed_rows keys = seq 0 (length keys).
Proof.
  intros H. unfold keyed_rows. apply forallb_filter_id.
  apply forallb_forall. intros i Hi. apply in_seq in Hi. unfold keyed.
  destruct (Pandas.key_of_cell (nth i keys NaN)) eqn:E; [reflexivity |].
  exfalso. apply (H (nth i keys NaN)); [| exact E]. apply nth_In. lia.
Qed.

(** Merging by [FIPS] keeps the mass: the totals of the county table add
    up to the totals of the crop rows and animal rows that have a [FIPS];
    a row whose [FIPS] is missing is left out of the county table.  When no
    [FIPS] is missing, the county totals add up to the crop totals plus the
    animal totals. *)
Theorem county_totals_add_up
        (year : string) (w : world) (d : loaded) (cF cT aF aT M : Series) :
  fst (load_data year w) = Ok d ->
  Pandas.getitem (crop_processing_nitrogen_df d) "FIPS" = Ok cF ->
  Pandas.getitem (crop_processing_nitrogen_df d) "total_nitrogen_loss" = Ok cT ->
  Pandas.getitem (animal_stage_nitrogen_df d) "FIPS" = Ok aF ->
  Pandas.getitem (animal_stage_nitrogen_df d) "total_nitrogen_loss" = Ok aT ->
  Pandas.getitem (total_nitrogen_df d) "total_nitrogen_loss" = Ok M ->
  (total_value M == total_value (Pandas.take (cT ++ aT) (keyed_rows (cF ++ aF))))%Q /\
  (length cF = length cT -> length aF = length aT ->
   (forall c, In c (cF ++ aF) -> Pandas.key_of_cell c <> None) ->
   (total_value M == total_value cT + total_value aT)%Q).
Proof.
  intros Hload HcF HcT HaF HaT HM.
  apply load_data_inv in Hload
      as (path & n & ar & inv & c & an & _ & _ & _ & _ & _ & _ & H).
  apply derive_inv in H
      as (crop1 & animal1 & crop2 & animal2 & total & _ & _ & _ & _ & Ht & ->).
  cbn [crop_processing_nitrogen_df animal_stage_nitrogen_df total_nitrogen_df] in *.
  apply total_nitrogen_columns in Ht
      as (cF' & cC & cT' & aF' & aC & aT' & E1 & _ & E3 & E4 & _ & E6 & Ht).
  rewrite HcF in E1. rewrite HcT in E3. rewrite HaF in E4. rewrite HaT in E6.
  injection E1 as <-. injection E3 as <-. injection E4 as <-. injection E6 as <-.
  apply merged_totals in Ht as (sums & Hsums & ->).
  change (Pandas.getitem _ "total_nitrogen_loss") with (Ok (A := Series) sums) in HM.
  injection HM as <-.
  assert (Hgen : (total_value sums
                  == total_value (Pandas.take (cT ++ aT) (keyed_rows (cF ++ aF))))%Q).
  { rewrite (group_sums_total _ _ _ Hsums). apply groups_total_groupby. }
  split; [exact Hgen |].
  intros Lc La Hkeys. rewrite Hgen, (keyed_rows_all _ Hkeys).
  replace (length (cF ++ aF)) with (length (cT ++ aT))
    by (rewrite !length_app; lia).
  rewrite take_all. apply total_value_app.
Qed.

(** The county totals of the sample: 1 524 000 + 254 000 + 4 000 + 4 000
    for the four counties, 1 758 000 for the crop rows and 24 000 for the
    animal rows. *)
Lemma sample_totals_add_up :
  exists d M,
    fst (load_data "2017" Sample.w) = Ok d /\
    Pandas.getitem (total_nitrogen_df d) "total_nitrogen_loss" = Ok M /\
    (total_value M == 1782000 # 1)%Q.
Proof.
  let v := eval vm_compute in (fst (load_data "2017" Sample.w)) in
  match v with
  | Ok ?x => pose (d := x)
  end.
  assert (E : fst (load_data "2017" Sample.w) = Ok d) by (vm_compute; reflexivity).
  edestruct county_totals_add_up
    with (year := "2017") (w := Sample.w) (d := d) as (_ & Hsum).
  1: exact E.
  1-5: vm_compute; reflexivity.
  eexists d, _. split; [exact E |]. split; [vm_compute; reflexivity |].
  rewrite Hsum.
  - vm_compute. reflexivity.
  - reflexivity.
  - reflexivity.
  - intros c Hc. vm_compute in Hc.
    repeat (destruct Hc as [<- | Hc]; [discriminate |]). contradiction.
Defined.

(** ** Inventory and harvested area *)

Lemma format_commodity_inv (df df' : DataFrame) (names : Series) :
  format_commodity df = Ok df' ->
  px_column df' "Commodity" = Ok names ->
  exists raw,
    Pandas.getitem df "Commodity" = Ok raw /\
    pretty_commodity raw = Ok names /\
    df' = Pandas.setitem df "Commodity" names.
Proof.
  unfold format_commodity. intros H Hpx. apply px_column_Ok in Hpx.
  destruct (Pandas.has_column df "Commodity") eqn:Hc.
  - apply rbind_Ok in H as (raw & Hraw & H). apply rbind_Ok in H as (lab & Hlab & H).
    injection H as <-. apply getitem_setitem_same in Hpx. subst names.
    now exists raw.
  - injection H as <-. apply getitem_has_column in Hpx. congruence.
Qed.

Lemma production_tab (df df' : DataFrame) (label values title : string) (fig : figure) :
  values <> "Commodity" ->
  format_commodity df = Ok df' ->
  px_pie df' "Commodity" values title = Ok fig ->
  is_production_tab df label values title
    (Tab label [Graph fig; Br; DataTable (Pandas.round_frame df')]).
Proof.
  intros Hne Hfmt Hpie. unfold px_pie in Hpie.
  apply rbind_Ok in Hpie as (names & Hnames & Hpie).
  apply rbind_Ok in Hpie as (vals & Hvals & Hpie). injection Hpie as <-.
  destruct (format_commodity_inv _ _ _ Hfmt Hnames) as (raw & Hraw & Hlab & ->).
  apply px_column_Ok in Hvals.
  rewrite getitem_setitem_other in Hvals by congruence.
  now exists raw, names, vals.
Qed.

Lemma inventory_harvest_inv (inventory area : DataFrame) (c : component) :
  inventory_harvest inventory area = Ok c ->
  exists inventory_tab area_tab,
    c = Div [ H2 "What Are the Production Totals for Crops and Animals in the Chesapeake Bay?"
                 "area-inventory";
              Tabs [inventory_tab; area_tab] ] /\
    is_production_tab inventory "Inventory" "Total Inventory (head)"
                      "<b>Inventory by Commodity<b>" inventory_tab /\
    is_production_tab area "Harvested Area" "Total Harvested Area (Acre)"
                      "<b> Harvested Area by Commodity <b>" area_tab.
Proof.
  unfold inventory_harvest. intros H.
  apply rbind_Ok in H as (inv' & Hinv & H). apply rbind_Ok in H as (area' & Harea & H).
  apply rbind_Ok in H as (ichart & Hic & H). apply rbind_Ok in H as (achart & Hac & H).
  injection H as <-.
  eexists _, _. split; [reflexivity |]. split.
  - apply (production_tab inventory inv'); [discriminate | assumption | assumption].
  - apply (production_tab area area'); [discriminate | assumption | assumption].
Qed.

(** The test [if "Commodity" in df.columns] does not save a table without
    that column: the labels are left as they are, and then the pie chart
    asks for the column.  When the inventory table or the harvested-area
    table has no [Commodity] column, the request raises and nothing is
    rendered. *)
Theorem production_needs_commodity (year : string) (w : world) (d : loaded) :
  fst (load_data year w) = Ok d ->
  Pandas.has_column (inventory_df d) "Commodity" = false \/
  Pandas.has_column (area_df d) "Commodity" = false ->
  exists e, fst (update_dashboard year w) = Raise e /\
            fst (update_dashboard_wrapper year w) = Raise e.
Proof.
  intros Hload Hmiss.
  destruct (fst (update_dashboard year w))
    as [[[[[maps table] content] slot] production] | e] eqn:Hup.
  - exfalso. rewrite update_dashboard_result, Hload in Hup.
    cbn [rbind] in Hup. unfold assemble in Hup.
    apply rbind_Ok in Hup as ([fr1 tabs] & _ & Hup).
    apply rbind_Ok in Hup as (fig & _ & Hup).
    apply rbind_Ok in Hup as (lt & _ & Hup).
    apply rbind_Ok in Hup as ([fr2 secs] & _ & Hup).
    apply rbind_Ok in Hup as (inv & Hinv & _).
    apply inventory_harvest_inv in Hinv
        as (it & at_ & _ & (r1 & _ & _ & H1 & _) & (r2 & _ & _ & H2 & _)).
    apply getitem_has_column in H1, H2.
    destruct Hmiss; congruence.
  - exists e. split; [reflexivity | now apply wrapper_raises].
Qed.

(** An inventory file whose header says [commodity]. *)
Lemma lowercase_header_raises :
  exists e, fst (update_dashboard_wrapper "2017" Sample2.w_lowercase) = Raise e.
Proof.
  destruct (fst (load_data "2017" Sample2.w_lowercase)) as [d | e0] eqn:E;
    [| vm_compute in E; discriminate E].
  destruct (production_needs_commodity "2017" Sample2.w_lowercase d E) as (e & _ & He).
  - left. vm_compute in E. injection E as <-. reflexivity.
  - now exists e.
Defined.

(** ** The shape of the loss table *)

Lemma select_length (df sel : DataFrame) (cols : list string) :
  Pandas.select df cols = Ok sel -> length sel = length cols.
Proof. intros H. apply select_Ok_columns in H. now apply mapM_length in H. Qed.

Lemma rounded_sums_length (df : DataFrame) (cols : list string) (rows : list cell) :
  rounded_sums df cols = Ok rows -> length rows = length cols.
Proof.
  unfold rounded_sums, Pandas.frame_sum. intros H.
  apply rbind_Ok in H as (sel & Hsel & H). apply rbind_Ok in H as (sums & Hsums & H).
  injection H as <-. apply select_length in Hsel. apply mapM_length in Hsums.
  rewrite length_map. congruence.
Qed.

(** The table of the loss categories always has its three columns with
    eight cells each: seven categories and the total.  The lists handed to
    [pd.DataFrame] have one length, whatever the loaded tables hold. *)
Theorem loss_table_shape (fr : frames) (t : DataFrame) :
  nitrogen_loss_table fr = Ok t ->
  Pandas.columns t = ["Nitrogen Loss ID"; "Nitrogen Loss Type"; "Total (K Tons)"] /\
  Forall (fun s => length s = 8) (Pandas.values t).
Proof.
  unfold nitrogen_loss_table. intros H.
  apply rbind_Ok in H as (ct & _ & H). apply rbind_Ok in H as (lt & _ & H).
  apply rbind_Ok in H as (crows & Hc & H). apply rbind_Ok in H as (lrows & Hl & H).
  injection H as <-.
  apply rounded_sums_length in Hc, Hl.
  split; [reflexivity |].
  unfold Pandas.values. cbn [map snd].
  constructor; [reflexivity |]. constructor; [reflexivity |].
  constructor; [| constructor].
  rewrite !length_app, Hc, Hl. reflexivity.
Qed.

Lemma sample_loss_table_shape :
  exists t,
    nitrogen_loss_table {| crop_df := Sample.crop; animal_df := Sample.animal |} = Ok t /\
    Forall (fun s => length s = 8) (Pandas.values t).
Proof.
  destruct (nitrogen_loss_table {| crop_df := Sample.crop; animal_df := Sample.animal |})
    as [t | e] eqn:E; [| vm_compute in E; discriminate E].
  exists t. split; [reflexivity |].
  apply (loss_table_shape {| crop_df := Sample.crop; animal_df := Sample.animal |} t E).
Defined.

(** ** Labels for display *)







